(** * video-merge-api: the merge handlers and their filter-graph plans

    The repository holds five revisions of one Express handler for
    [POST /api/merge-videos]:

    - [FusedConcat]       src/server.js, first file   (one four-pad concat)
    - [SilenceSynthesis]  src/server.js, second file  (anullsrc for a missing track)
    - [SeparateAudio]     src/unnamed/part_000, first file  (video-only concat, audio apart)
    - [RejectAsymmetric]  src/unnamed/part_000, second file (400 for two combinations)
    - [StreamCopy]        src/unnamed/part_001        (concat demuxer, -c copy)

    Filter stages and output options are the string literals of the source.
    The external collaborators (multer, ffprobe, ffmpeg, the file system, the
    clock) are an explicit environment; the handler is a computation in a
    state-and-exception monad over the temporary directory and a trace of
    the calls it makes.  Logging is left out. *)

From Stdlib Require Import String Ascii List Bool NArith Arith Lia.
From Stdlib Require Import DecimalString DecimalN.
Import ListNotations.
Open Scope string_scope.
Open Scope list_scope.

(** ** Strings *)

Definition srev (s : string) : string :=
  string_of_list_ascii (rev (list_ascii_of_string s)).

Definition mem (x : string) (l : list string) : bool :=
  existsb (String.eqb x) l.

Fixpoint startsWith (p s : string) : bool :=
  match p, s with
  | EmptyString, _ => true
  | String a p', String b s' => Ascii.eqb a b && startsWith p' s'
  | String _ _, EmptyString => false
  end.

Fixpoint dropChars (n : nat) (s : string) : string :=
  match n, s with
  | S n', String _ s' => dropChars n' s'
  | _, _ => s
  end.

(** Template-literal rendering of a non-negative integer ([`${Date.now()}`]). *)
Definition decimal (n : N) : string :=
  NilEmpty.string_of_uint (N.to_uint n).

(** ** Filter-graph syntax

    A stage is written [[in1][in2]chain[out1][out2]]: link labels in
    brackets before the filter chain are the pads it consumes, those after
    it the pads it produces; the chain is a comma-separated list of
    filters. *)
Module FilterGraph.

(** Characters up to the closing bracket, and what follows it. *)
Fixpoint readLabel (close : ascii) (s : string) : option (string * string) :=
  match s with
  | EmptyString => None
  | String c r =>
      if Ascii.eqb c close then Some (EmptyString, r)
      else match readLabel close r with
           | Some (l, r') => Some (String c l, r')
           | None => None
           end
  end.

(** The run of bracketed labels a string starts with, and the rest. *)
Fixpoint linkLabels (fuel : nat) (opening close : ascii) (s : string)
  : list string * string :=
  match fuel with
  | O => ([], s)
  | S fuel' =>
      match s with
      | String c r =>
          if Ascii.eqb c opening then
            match readLabel close r with
            | Some (l, r') =>
                let (ls, rest) := linkLabels fuel' opening close r' in
                (l :: ls, rest)
            | None => ([], s)
            end
          else ([], s)
      | EmptyString => ([], s)
      end
  end.

Definition bracket (l : string) : string := ("[" ++ l ++ "]")%string.

Definition inputPads (stage : string) : list string :=
  map bracket (fst (linkLabels (String.length stage) "[" "]" stage)).

Definition outputPads (stage : string) : list string :=
  rev (map (fun l => bracket (srev l))
           (fst (linkLabels (String.length stage) "]" "[" (srev stage)))).

(** The stage without its leading and trailing labels. *)
Definition chainText (stage : string) : string :=
  let body := snd (linkLabels (String.length stage) "[" "]" stage) in
  srev (snd (linkLabels (String.length body) "]" "[" (srev body))).

Fixpoint splitOn (sep : ascii) (s : string) : list string :=
  match s with
  | EmptyString => [EmptyString]
  | String c r =>
      if Ascii.eqb c sep then EmptyString :: splitOn sep r
      else match splitOn sep r with
           | w :: ws => String c w :: ws
           | [] => [String c EmptyString]
           end
  end.

Definition filterChain (stage : string) : list string :=
  splitOn "," (chainText stage).

Fixpoint producedBy (stages : list string) : list string :=
  match stages with
  | [] => []
  | s :: rest => outputPads s ++ producedBy rest
  end.

Fixpoint consumedBy (stages : list string) : list string :=
  match stages with
  | [] => []
  | s :: rest => inputPads s ++ consumedBy rest
  end.

(** Raw pads of the two inputs: the video stream of each, and the audio
    stream of each input that has one. *)
Definition rawPads (introHasA mainHasA : bool) : list string :=
  ["[0:v]"; "[1:v]"]
    ++ (if introHasA then ["[0:a]"] else [])
    ++ (if mainHasA then ["[1:a]"] else []).

(** Every stage consumes only raw pads and pads of the stages before it. *)
Fixpoint stagesOk (raw produced stages : list string) : bool :=
  match stages with
  | [] => true
  | s :: rest =>
      forallb (fun l => mem l raw || mem l produced) (inputPads s)
      && stagesOk raw (produced ++ outputPads s) rest
  end.

Fixpoint distinct (l : list string) : bool :=
  match l with
  | [] => true
  | x :: r => negb (mem x r) && distinct r
  end.

(** The labels of the [-map] directives among the output options. *)
Fixpoint mapLabels (options : list string) : list string :=
  match options with
  | [] => []
  | o :: rest =>
      if startsWith "-map " o then dropChars 5 o :: mapLabels rest
      else mapLabels rest
  end.

Definition finalVideoLabel (options : list string) : option string :=
  nth_error (mapLabels options) 0.

Definition finalAudioLabel (options : list string) : option string :=
  nth_error (mapLabels options) 1.

(** The window of an [atrim=start:end] filter, in whole seconds. *)
Definition atrimWindow (filter : string) : option (N * N) :=
  if startsWith "atrim=" filter then
    match splitOn ":" (dropChars 6 filter) with
    | [a; b] =>
        match NilEmpty.uint_of_string a, NilEmpty.uint_of_string b with
        | Some x, Some y => Some (N.of_uint x, N.of_uint y)
        | _, _ => None
        end
    | _ => None
    end
  else None.

Record Plan := mkPlan {
  filters : list string;
  options : list string
}.

(** A plan is well formed when no stage reads a pad that is neither raw
    nor produced before it, no pad is produced twice, and every mapped
    label is raw or produced. *)
Definition wellFormed (introHasA mainHasA : bool) (p : Plan) : bool :=
  stagesOk (rawPads introHasA mainHasA) [] (filters p)
  && distinct (producedBy (filters p))
  && forallb (fun l => mem l (rawPads introHasA mainHasA)
                       || mem l (producedBy (filters p)))
             (mapLabels (options p)).

End FilterGraph.
Import FilterGraph.

(** ** The planners *)

(** src/server.js, first file, lines 55-124. *)
Module FusedConcat.

Definition videoFilters : list string :=
  [ "[0:v]fps=30,format=yuv420p,scale=w=1920:h=1080:force_original_aspect_ratio=decrease,setpts=PTS-STARTPTS[v0]";
    "[1:v]fps=30,format=yuv420p,scale=w=1920:h=1080:force_original_aspect_ratio=decrease,setpts=PTS-STARTPTS[v1]" ].

Definition audioFilters (introHasA mainHasA : bool) : list string :=
  if introHasA && mainHasA then
    [ "[0:a]aresample=48000,asetpts=PTS-STARTPTS[a0]";
      "[1:a]aresample=48000,asetpts=PTS-STARTPTS[a1]" ]
  else if introHasA && negb mainHasA then
    [ "[0:a]aresample=48000,asetpts=PTS-STARTPTS[a0]" ]
  else if negb introHasA && mainHasA then
    [ "[1:a]aresample=48000,asetpts=PTS-STARTPTS[a1]" ]
  else [].

Definition concatFilter (introHasA mainHasA : bool) : string :=
  if introHasA && mainHasA then
    "[v0][a0][v1][a1]concat=n=2:v=1:a=1[v][a]"
  else if introHasA && negb mainHasA then
    "[v0][a0][v1][a0]concat=n=2:v=1:a=1[v][a]"
  else if negb introHasA && mainHasA then
    "[v0][v1]concat=n=2:v=1:a=0[v]"
  else
    "[v0][v1]concat=n=2:v=1:a=0[v]".

Definition hasAudioOutput (introHasA mainHasA : bool) : bool :=
  if introHasA && mainHasA then true
  else if introHasA && negb mainHasA then true
  else if negb introHasA && mainHasA then true
  else false.

Definition allFilters (introHasA mainHasA : bool) : list string :=
  videoFilters ++ audioFilters introHasA mainHasA
               ++ [concatFilter introHasA mainHasA].

Definition outputOptions (introHasA mainHasA : bool) : list string :=
  if hasAudioOutput introHasA mainHasA then
    [ "-map [v]"; "-map [a]"; "-c:v libx264"; "-preset veryfast";
      "-crf 20"; "-c:a aac"; "-b:a 192k"; "-movflags +faststart" ]
  else
    [ "-map [v]"; "-c:v libx264"; "-preset veryfast"; "-crf 20";
      "-movflags +faststart" ].

Definition plan (introHasA mainHasA : bool) : string + Plan :=
  inr (mkPlan (allFilters introHasA mainHasA)
              (outputOptions introHasA mainHasA)).

End FusedConcat.

(** src/server.js, second file, lines 222-271. *)
Module SilenceSynthesis.

Definition videoFilters : list string :=
  [ "[0:v]fps=30,format=yuv420p,setpts=PTS-STARTPTS[v0]";
    "[1:v]fps=30,format=yuv420p,setpts=PTS-STARTPTS[v1]" ].

Definition introAudio (introHasA : bool) : string :=
  if introHasA then "[0:a]aresample=48000,asetpts=PTS-STARTPTS[a0]"
  else "anullsrc=cl=stereo:r=48000,atrim=0:1[a0]".

Definition mainAudio (mainHasA : bool) : string :=
  if mainHasA then "[1:a]aresample=48000,asetpts=PTS-STARTPTS[a1]"
  else "anullsrc=cl=stereo:r=48000,atrim=0:1[a1]".

Definition audioFilters (introHasA mainHasA : bool) : list string :=
  [] ++ [introAudio introHasA] ++ [mainAudio mainHasA].

Definition concatAudioPads (introHasA mainHasA : bool) : string :=
  ((EmptyString ++ (if introHasA then "[a0]" else "[a0]"))
     ++ (if mainHasA then "[a1]" else "[a1]"))%string.

Definition concatFilter : string :=
  "[v0][a0][v1][a1]concat=n=2:v=1:a=1[v][a]".

Definition allFilters (introHasA mainHasA : bool) : list string :=
  videoFilters ++ audioFilters introHasA mainHasA ++ [concatFilter].

Definition outputOptions : list string :=
  [ "-map [v]"; "-map [a]"; "-c:v libx264"; "-preset veryfast";
    "-crf 20"; "-c:a aac"; "-b:a 192k"; "-movflags +faststart" ].

Definition plan (introHasA mainHasA : bool) : string + Plan :=
  inr (mkPlan (allFilters introHasA mainHasA) outputOptions).

End SilenceSynthesis.

(** src/unnamed/part_000, first file, lines 55-126. *)
Module SeparateAudio.

Definition videoFilters : list string := FusedConcat.videoFilters.

Definition filterSegments : list string :=
  videoFilters ++ ["[v0][v1]concat=n=2:v=1:a=0[v]"].

Definition audioFilters (introHasA mainHasA : bool) : list string :=
  if introHasA && mainHasA then
    [ "[0:a]aresample=48000,asetpts=PTS-STARTPTS[a_intro]";
      "[1:a]aresample=48000,asetpts=PTS-STARTPTS[a_main]";
      "[a_intro][a_main]concat=n=2:v=0:a=1[a]" ]
  else if introHasA && negb mainHasA then
    [ "[0:a]aresample=48000,asetpts=PTS-STARTPTS[a_intro]" ]
  else if negb introHasA && mainHasA then
    [ "[1:a]aresample=48000,asetpts=PTS-STARTPTS[a_main]" ]
  else [].

Definition audioOutputLabel (introHasA mainHasA : bool) : option string :=
  if introHasA && mainHasA then Some "[a]"
  else if introHasA && negb mainHasA then Some "[a_intro]"
  else if negb introHasA && mainHasA then Some "[a_main]"
  else None.

Definition allFilters (introHasA mainHasA : bool) : list string :=
  filterSegments ++ audioFilters introHasA mainHasA.

(** A label is a non-empty string, hence truthy; [null] is not. *)
Definition outputOptionsFor (audioOutputLabel : option string) : list string :=
  match audioOutputLabel with
  | Some label =>
      [ "-map [v]"; ("-map " ++ label)%string; "-c:v libx264"; "-preset veryfast";
        "-crf 20"; "-c:a aac"; "-b:a 192k"; "-movflags +faststart" ]
  | None =>
      [ "-map [v]"; "-c:v libx264"; "-preset veryfast"; "-crf 20";
        "-movflags +faststart" ]
  end.

Definition outputOptions (introHasA mainHasA : bool) : list string :=
  outputOptionsFor (audioOutputLabel introHasA mainHasA).

Definition plan (introHasA mainHasA : bool) : string + Plan :=
  inr (mkPlan (allFilters introHasA mainHasA)
              (outputOptions introHasA mainHasA)).

End SeparateAudio.

(** src/unnamed/part_000, second file, lines 224-299. *)
Module RejectAsymmetric.

Definition videoFilters : list string := FusedConcat.videoFilters.

Definition filterSegments : list string :=
  videoFilters ++ ["[v0][v1]concat=n=2:v=1:a=0[v]"].

Definition audioFilters (introHasA mainHasA : bool) : list string :=
  if introHasA && mainHasA then
    [ "[0:a]aresample=48000,asetpts=PTS-STARTPTS[a0]";
      "[1:a]aresample=48000,asetpts=PTS-STARTPTS[a1]";
      "[a0][a1]concat=n=2:v=0:a=1[a]" ]
  else
    [ "[1:a]aresample=48000,asetpts=PTS-STARTPTS[a_main]" ].

Definition audioOutputLabel (introHasA mainHasA : bool) : option string :=
  if introHasA && mainHasA then Some "[a]" else Some "[a_main]".

Definition allFilters (introHasA mainHasA : bool) : list string :=
  filterSegments ++ audioFilters introHasA mainHasA.

Definition outputOptions (introHasA mainHasA : bool) : list string :=
  SeparateAudio.outputOptionsFor (audioOutputLabel introHasA mainHasA).

(** The two early [return res.status(400)] guards come first. *)
Definition plan (introHasA mainHasA : bool) : string + Plan :=
  if introHasA && negb mainHasA then
    inl "Unsupported combination: intro has audio but main does not. Provide main clip with audio or remove intro audio."
  else if negb introHasA && negb mainHasA then
    inl "Unsupported combination: neither input has audio. Provide a main clip with audio."
  else
    inr (mkPlan (allFilters introHasA mainHasA)
                (outputOptions introHasA mainHasA)).

End RejectAsymmetric.

(** ** The request, the environment and the handler monad *)

Record UploadedFile := mkUpload { path : string }.

(** [req.files]: a field is present only when a file came with it. *)
Record Files := mkFiles {
  intro : option (list UploadedFile);
  main : option (list UploadedFile)
}.

Record Request := mkRequest { files : option Files }.

Inductive Body :=
| JsonError (message : string)      (* res.json({ error: message }) *)
| Text (content : string)           (* res.send(content) *)
| FileBody (file : string).         (* res.sendFile(file), delivered or not *)

Record Response := mkResponse { status : N; body : Body }.

Record Stream := mkStream { codec_type : string }.
Record ProbeData := mkProbe { streams : option (list Stream) }.

(** One ffmpeg command as the fluent builder assembles it. *)
Record Command := mkCommand {
  inputs : list string;
  inputOptions : list string;
  complexFilter : option (list string);
  commandOptions : list string;
  output : string
}.

Inductive Event :=
| Ffprobe (file : string)
| Ffmpeg (cmd : Command)
| WriteFile (file content : string)
| Unlink (file : string)
| Respond (r : Response).

(** What a [catch] receives.  The texts of the [TypeError]s below are
    those of V8; the handlers only pass them on. *)
Inductive Exn :=
| TypeError (msg : string)
| Failure (msg : string).

Definition message (e : Exn) : string :=
  match e with TypeError m => m | Failure m => m end.

(** What the collaborators answer during one request. *)
Record Env := mkEnv {
  tmpdir : string;                               (* os.tmpdir() *)
  cwd : string;                                  (* process.cwd() *)
  now : N;                                       (* first Date.now() *)
  nowAgain : N;                                  (* second Date.now() *)
  ffprobe : string -> string + option ProbeData; (* err.message or info *)
  mainSettlesFirst : bool;                       (* order of the two probes *)
  ffmpegRun : Command -> option string;          (* 'error' message, or 'end' *)
  leavesPartialOutput : bool;                    (* a failed run left a file *)
  writeFileFails : option string
}.

Record World := mkWorld {
  tmpFiles : list string;                        (* files in temporary storage *)
  trace : list Event                             (* calls made, oldest first *)
}.

Definition M (A : Type) : Type := World -> (Exn + A) * World.

Definition ret {A} (a : A) : M A := fun w => (inr a, w).

Definition bind {A B} (m : M A) (k : A -> M B) : M B :=
  fun w => match m w with
           | (inr a, w') => k a w'
           | (inl e, w') => (inl e, w')
           end.

Definition throw {A} (e : Exn) : M A := fun w => (inl e, w).

Definition tryCatch {A} (m : M A) (h : Exn -> M A) : M A :=
  fun w => match m w with
           | (inr a, w') => (inr a, w')
           | (inl e, w') => h e w'
           end.

Definition emit (ev : Event) : M unit :=
  fun w => (inr tt, mkWorld (tmpFiles w) (trace w ++ [ev])).

Declare Scope handler_scope.
Delimit Scope handler_scope with handler.
Notation "x <- m ;; k" := (bind m (fun x => k))
  (at level 61, m at next level, right associativity) : handler_scope.
Notation "m ;; k" := (bind m (fun _ => k))
  (at level 61, right associativity) : handler_scope.
Open Scope handler_scope.

(** [path.join] and [path.resolve], for segments that need no
    normalizing (no empty, [.] or [..] segment). *)
Definition join (dir name : string) : string := (dir ++ "/" ++ name)%string.

Definition resolve (env : Env) (p : string) : string :=
  if startsWith "/" p then p else join (cwd env) p.

Definition removeFile (p : string) (l : list string) : list string :=
  filter (fun q => negb (String.eqb p q)) l.

Definition addFile (p : string) (l : list string) : list string :=
  if mem p l then l else p :: l.

Definition unlinkSync (p : string) : M unit :=
  fun w =>
    let w' := mkWorld (tmpFiles w) (trace w ++ [Unlink p]) in
    if mem p (tmpFiles w)
    then (inr tt, mkWorld (removeFile p (tmpFiles w)) (trace w'))
    else (inl (Failure ("ENOENT: no such file or directory, unlink '" ++ p ++ "'")%string), w').

Definition writeFileSync (env : Env) (p content : string) : M unit :=
  fun w =>
    let w' := mkWorld (tmpFiles w) (trace w ++ [WriteFile p content]) in
    match writeFileFails env with
    | Some msg => (inl (Failure msg), w')
    | None => (inr tt, mkWorld (addFile p (tmpFiles w)) (trace w'))
    end.

(** The promise around one ffmpeg run: resolved on 'end', rejected on 'error'. *)
Definition runFfmpeg (env : Env) (cmd : Command) : M unit :=
  fun w =>
    let w' := mkWorld (tmpFiles w) (trace w ++ [Ffmpeg cmd]) in
    match ffmpegRun env cmd with
    | None => (inr tt, mkWorld (addFile (output cmd) (tmpFiles w)) (trace w'))
    | Some msg =>
        (inl (Failure msg),
         if leavesPartialOutput env
         then mkWorld (addFile (output cmd) (tmpFiles w)) (trace w')
         else w')
    end.

(** Both probes are started, then awaited with [Promise.all]: the first
    rejection wins. *)
Definition probeBoth (env : Env) (introPath mainPath : string)
  : M (option ProbeData * option ProbeData) :=
  emit (Ffprobe introPath) ;;
  emit (Ffprobe mainPath) ;;
  match ffprobe env introPath, ffprobe env mainPath with
  | inr introInfo, inr mainInfo => ret (introInfo, mainInfo)
  | inl e, inr _ => throw (Failure e)
  | inr _, inl e => throw (Failure e)
  | inl e1, inl e2 => throw (Failure (if mainSettlesFirst env then e2 else e1))
  end.

(** [(info?.streams || []).some(s => s.codec_type === 'audio')] *)
Definition hasAudio (info : option ProbeData) : bool :=
  existsb (fun s => String.eqb (codec_type s) "audio")
          (match info with
           | Some d => match streams d with Some l => l | None => [] end
           | None => []
           end).

(** [field[0].path] for a field of [req.files]. *)
Definition firstPath (field : option (list UploadedFile)) : M string :=
  match field with
  | Some (f :: _) => ret (path f)
  | Some [] => throw (TypeError "Cannot read properties of undefined (reading 'path')")
  | None => throw (TypeError "Cannot read properties of undefined (reading '0')")
  end.

(** [!req.files || !req.files.intro || !req.files.main] *)
Definition missingFiles (req : Request) : bool :=
  match files req with
  | None => true
  | Some f =>
      match intro f, main f with
      | Some _, Some _ => false
      | _, _ => true
      end
  end.

Definition dquote : string := String (ascii_of_nat 34) EmptyString.

(** ['Missing files. Send form fields "intro" and "main".'] *)
Definition missingFilesMessage : string :=
  ("Missing files. Send form fields " ++ dquote ++ "intro" ++ dquote
   ++ " and " ++ dquote ++ "main" ++ dquote ++ ".")%string.

Definition respond (code : N) (b : Body) : M unit :=
  emit (Respond (mkResponse code b)).

(** The four filter-graph handlers differ only in how the filters and the
    output options are chosen from the two audio flags. *)
Section MergeHandler.

Variable plan : bool -> bool -> string + Plan.
Variable env : Env.

Definition TMP : string := join (tmpdir env) "video-merge-api".

Definition outputPath : string :=
  join TMP ("merged_" ++ decimal (now env) ++ ".mp4")%string.

(** The callback of [res.sendFile]: runs whether or not delivery worked. *)
Definition cleanup (introPath mainPath outputPath : string) : M unit :=
  tryCatch
    (unlinkSync introPath ;;
     unlinkSync mainPath ;;
     unlinkSync outputPath)
    (fun _ => ret tt).

Definition mergeVideos (req : Request) : M unit :=
  tryCatch
    (if missingFiles req then
       respond 400 (JsonError missingFilesMessage)
     else
       introPath <- firstPath (match files req with Some f => intro f | None => None end) ;;
       mainPath <- firstPath (match files req with Some f => main f | None => None end) ;;
       infos <- probeBoth env introPath mainPath ;;
       let introHasA := hasAudio (fst infos) in
       let mainHasA := hasAudio (snd infos) in
       match plan introHasA mainHasA with
       | inl unsupported => respond 400 (JsonError unsupported)
       | inr p =>
           runFfmpeg env (mkCommand [introPath; mainPath] []
                                    (Some (filters p)) (options p) outputPath) ;;
           respond 200 (FileBody (resolve env outputPath)) ;;
           cleanup introPath mainPath outputPath
       end)
    (fun error => respond 500 (JsonError (message error))).

End MergeHandler.

(** src/unnamed/part_001. *)
Module StreamCopy.

Definition outputPath (env : Env) : string :=
  join "uploads" ("merged_" ++ decimal (now env) ++ ".mp4")%string.

Definition fileListPath (env : Env) : string :=
  join "uploads" ("filelist_" ++ decimal (nowAgain env) ++ ".txt")%string.

Definition newline : string := String (ascii_of_nat 10) EmptyString.

Definition fileList (env : Env) (introPath mainPath : string) : string :=
  ("file '" ++ resolve env introPath ++ "'" ++ newline
   ++ "file '" ++ resolve env mainPath ++ "'")%string.

Definition cleanup (introPath mainPath fileListPath outputPath : string) : M unit :=
  tryCatch
    (unlinkSync introPath ;;
     unlinkSync mainPath ;;
     unlinkSync fileListPath ;;
     unlinkSync outputPath)
    (fun _ => ret tt).

(** [req.files.<field>[0].path], with nothing checked before. *)
Definition fieldPath (req : Request) (name : string)
           (field : Files -> option (list UploadedFile)) : M string :=
  match files req with
  | None =>
      throw (TypeError ("Cannot read properties of undefined (reading '" ++ name ++ "')")%string)
  | Some f => firstPath (field f)
  end.

Definition mergeVideos (env : Env) (req : Request) : M unit :=
  tryCatch
    (introPath <- fieldPath req "intro" intro ;;
     mainPath <- fieldPath req "main" main ;;
     writeFileSync env (fileListPath env) (fileList env introPath mainPath) ;;
     runFfmpeg env (mkCommand [fileListPath env] ["-f concat"; "-safe 0"]
                              None ["-c copy"] (outputPath env)) ;;
     respond 200 (FileBody (resolve env (outputPath env))) ;;
     cleanup introPath mainPath (fileListPath env) (outputPath env))
    (fun error => respond 500 (Text ("Error: " ++ message error)%string)).

End StreamCopy.

(** A request as multer hands it over: the uploaded files are in storage. *)
Definition uploads (req : Request) : list string :=
  match files req with
  | None => []
  | Some f =>
      map path (match intro f with Some l => l | None => [] end)
      ++ map path (match main f with Some l => l | None => [] end)
  end.

Definition arrival (req : Request) : World := mkWorld (uploads req) [].

Definition finalWorld (handler : Request -> M unit) (req : Request) : World :=
  snd (handler req (arrival req)).

Definition responses (w : World) : list Response :=
  flat_map (fun ev => match ev with Respond r => [r] | _ => [] end) (trace w).

Definition isProbe (ev : Event) : bool :=
  match ev with Ffprobe _ => true | _ => false end.

Definition isTranscode (ev : Event) : bool :=
  match ev with Ffmpeg _ => true | _ => false end.

Definition isFilterRun (ev : Event) : bool :=
  match ev with
  | Ffmpeg cmd => match complexFilter cmd with Some _ => true | None => false end
  | _ => false
  end.

Definition unlinks (p : string) (w : World) : nat :=
  length (filter (fun ev => match ev with
                            | Unlink q => String.eqb p q
                            | _ => false
                            end) (trace w)).

(** ** What the claims say, as predicates over a planner's output *)

(** One stage that resamples the raw pad [raw] into [pad], and nothing else. *)
Definition resamplesOnly (raw : string) (audioFilters : list string)
           (pad : string) : Prop :=
  exists stage,
    audioFilters = [stage]
    /\ inputPads stage = [raw]
    /\ outputPads stage = [pad]
    /\ In "aresample=48000" (filterChain stage).

(** Intro-only audio as the decision table words it: the intro's
    normalized pad is itself the audio output, no stage reads it again,
    and the two video pads are concatenated into the video output. *)
Definition introOnlyAsClaimed (audioFilters allFilters outputOptions : list string)
  : Prop :=
  exists pad,
    resamplesOnly "[0:a]" audioFilters pad
    /\ finalAudioLabel outputOptions = Some pad
    /\ ~ In pad (consumedBy allFilters)
    /\ (exists vc, In vc allFilters
                   /\ inputPads vc = ["[v0]"; "[v1]"]
                   /\ outputPads vc = ["[v]"])
    /\ finalVideoLabel outputOptions = Some "[v]".

(** The stage count of the testable property: 3, 1, 1, 0. *)
Definition claimedAudioStages (introHasA mainHasA : bool) : nat :=
  if introHasA && mainHasA then 3
  else if introHasA || mainHasA then 1
  else 0.

Definition isNormalize (stage : string) : bool :=
  mem "aresample=48000" (filterChain stage).

Definition isSilence (stage : string) : bool :=
  existsb (startsWith "anullsrc") (filterChain stage).

Definition isConcat (stage : string) : bool :=
  existsb (startsWith "concat=") (filterChain stage).

Definition countStages (p : string -> bool) (stages : list string) : nat :=
  length (filter p stages).

(** Seconds kept by the [atrim] filter of a stage, when it has one. *)
Definition trimSeconds (stage : string) : option N :=
  match flat_map (fun f => match atrimWindow f with
                           | Some w => [w]
                           | None => []
                           end) (filterChain stage) with
  | (a, b) :: _ => Some (b - a)%N
  | [] => None
  end.

(** [concatAudioPads] names the two pads the concat reads. *)
Definition concatAudioPadsAgree (introHasA mainHasA : bool) : Prop :=
  SilenceSynthesis.concatAudioPads introHasA mainHasA = "[a0][a1]".

(** ** Events a handler may emit *)

(** A computation only appends to the trace, and only events in [P]. *)
Definition emitsOnly {A} (P : Event -> Prop) (m : M A) : Prop :=
  forall w, exists more,
    trace (snd (m w)) = trace w ++ more /\ Forall P more.

(** The one ffmpeg command of the stream-copy handler. *)
Definition copyCommand (env : Env) : Command :=
  mkCommand [StreamCopy.fileListPath env] ["-f concat"; "-safe 0"]
            None ["-c copy"] (StreamCopy.outputPath env).

(** No probe, no filter graph; the list file names two files; ffmpeg is
    run as [copyCommand] only. *)
Definition streamCopyEvent (env : Env) (ev : Event) : Prop :=
  match ev with
  | Ffprobe _ => False
  | Ffmpeg cmd => cmd = copyCommand env
  | WriteFile f content =>
      f = StreamCopy.fileListPath env
      /\ exists introPath mainPath,
           content = StreamCopy.fileList env introPath mainPath
  | Unlink _ => True
  | Respond _ => True
  end.

(** Every transcode of a filter-graph handler writes to [outputPath]. *)
Definition writesTo (target : string) (ev : Event) : Prop :=
  match ev with
  | Ffmpeg cmd => output cmd = target
  | _ => True
  end.

Definition withProbe (env : Env)
           (probe : string -> string + option ProbeData) : Env :=
  mkEnv (tmpdir env) (cwd env) (now env) (nowAgain env) probe
        (mainSettlesFirst env) (ffmpegRun env) (leavesPartialOutput env)
        (writeFileFails env).

Definition transcodeOutputs (w : World) : list string :=
  flat_map (fun ev => match ev with Ffmpeg cmd => [output cmd] | _ => [] end)
           (trace w).

(** The run reached [res.sendFile]. *)
Definition delivered (w : World) : bool :=
  existsb (fun ev => match ev with
                     | Respond r => N.eqb (status r) 200
                     | _ => false
                     end) (trace w).

Definition anyUnlink (w : World) : bool :=
  existsb (fun ev => match ev with Unlink _ => true | _ => false end) (trace w).

(** ** Sample requests and environments *)

Definition audioVideo : option ProbeData :=
  Some (mkProbe (Some [mkStream "video"; mkStream "audio"])).

Definition sampleRequest : Request :=
  mkRequest (Some (mkFiles (Some [mkUpload "/tmp/video-merge-api/8f3a"])
                           (Some [mkUpload "/tmp/video-merge-api/b21c"]))).

Definition otherRequest : Request :=
  mkRequest (Some (mkFiles (Some [mkUpload "/tmp/video-merge-api/41d0"])
                           (Some [mkUpload "/tmp/video-merge-api/c977"]))).

Definition noMainRequest : Request :=
  mkRequest (Some (mkFiles (Some [mkUpload "/tmp/video-merge-api/8f3a"]) None)).

Definition copyRequest : Request :=
  mkRequest (Some (mkFiles (Some [mkUpload "uploads/8f3a"])
                           (Some [mkUpload "uploads/b21c"]))).

Definition copyNoMainRequest : Request :=
  mkRequest (Some (mkFiles (Some [mkUpload "uploads/8f3a"]) None)).

(** Everything works: both inputs have audio and video. *)
Definition sampleEnv : Env :=
  mkEnv "/tmp" "/app" 1730000000000 1730000000000
        (fun _ => inr audioVideo) false (fun _ => None) false None.

(** The intro is not a media file. *)
Definition brokenIntroEnv : Env :=
  withProbe sampleEnv
            (fun f => if String.eqb f "/tmp/video-merge-api/8f3a"
                      then inl "Invalid data found when processing input"
                      else inr audioVideo).

(** ffmpeg fails and leaves a partial output file. *)
Definition failingTranscodeEnv : Env :=
  mkEnv "/tmp" "/app" 1730000000000 1730000000000
        (fun _ => inr audioVideo) false
        (fun _ => Some "ffmpeg exited with code 1") true None.

Definition videoOnly : option ProbeData :=
  Some (mkProbe (Some [mkStream "video"])).

(** The main clip has no audio stream. *)
Definition silentMainEnv : Env :=
  withProbe sampleEnv
            (fun f => if String.eqb f "/tmp/video-merge-api/b21c"
                      then inr videoOnly
                      else inr audioVideo).

(** The output options that are not [-map] directives. *)
Definition encodingOf (options : list string) : list string :=
  filter (fun o => negb (startsWith "-map " o)) options.

(** ** Shapes of a run *)

(** The calls of one cleanup: it stops at the first unlink that fails. *)
Definition cleanupCalls (files : list string) (calls : list Event) : Prop :=
  exists n, 0 < n <= length files /\ calls = map Unlink (firstn n files).

Definition transcodeCommand (introPath mainPath : string) (p : Plan)
           (target : string) : Command :=
  mkCommand [introPath; mainPath] [] (Some (filters p)) (options p) target.

(** The traces a filter-graph handler can leave. *)
Inductive MergeRun (plan : bool -> bool -> string + Plan) (env : Env)
          (req : Request) : list Event -> Prop :=
| RunMissing :
    missingFiles req = true ->
    MergeRun plan env req
      [Respond (mkResponse 400 (JsonError missingFilesMessage))]
| RunEmptyField li lm msg :
    files req = Some (mkFiles (Some li) (Some lm)) ->
    li = [] \/ lm = [] ->
    MergeRun plan env req [Respond (mkResponse 500 (JsonError msg))]
| RunProbeFailed i li m lm msg :
    files req = Some (mkFiles (Some (i :: li)) (Some (m :: lm))) ->
    ffprobe env (path i) = inl msg \/ ffprobe env (path m) = inl msg ->
    MergeRun plan env req
      [Ffprobe (path i); Ffprobe (path m);
       Respond (mkResponse 500 (JsonError msg))]
| RunUnsupported i li m lm a b msg :
    files req = Some (mkFiles (Some (i :: li)) (Some (m :: lm))) ->
    ffprobe env (path i) = inr a ->
    ffprobe env (path m) = inr b ->
    plan (hasAudio a) (hasAudio b) = inl msg ->
    MergeRun plan env req
      [Ffprobe (path i); Ffprobe (path m);
       Respond (mkResponse 400 (JsonError msg))]
| RunTranscodeFailed i li m lm a b p msg :
    files req = Some (mkFiles (Some (i :: li)) (Some (m :: lm))) ->
    ffprobe env (path i) = inr a ->
    ffprobe env (path m) = inr b ->
    plan (hasAudio a) (hasAudio b) = inr p ->
    ffmpegRun env (transcodeCommand (path i) (path m) p (outputPath env))
    = Some msg ->
    MergeRun plan env req
      [Ffprobe (path i); Ffprobe (path m);
       Ffmpeg (transcodeCommand (path i) (path m) p (outputPath env));
       Respond (mkResponse 500 (JsonError msg))]
| RunDelivered i li m lm a b p calls :
    files req = Some (mkFiles (Some (i :: li)) (Some (m :: lm))) ->
    ffprobe env (path i) = inr a ->
    ffprobe env (path m) = inr b ->
    plan (hasAudio a) (hasAudio b) = inr p ->
    ffmpegRun env (transcodeCommand (path i) (path m) p (outputPath env))
    = None ->
    cleanupCalls [path i; path m; outputPath env] calls ->
    MergeRun plan env req
      ([Ffprobe (path i); Ffprobe (path m);
        Ffmpeg (transcodeCommand (path i) (path m) p (outputPath env));
        Respond (mkResponse 200 (FileBody (resolve env (outputPath env))))]
         ++ calls).

(** The traces the stream-copy handler can leave. *)
Inductive CopyRun (env : Env) (req : Request) : list Event -> Prop :=
| CopyNoField msg :
    missingFiles req = true
    \/ (exists li lm, files req = Some (mkFiles (Some li) (Some lm))
                      /\ (li = [] \/ lm = [])) ->
    CopyRun env req [Respond (mkResponse 500 (Text ("Error: " ++ msg)%string))]
| CopyWriteFailed i li m lm msg :
    files req = Some (mkFiles (Some (i :: li)) (Some (m :: lm))) ->
    writeFileFails env = Some msg ->
    CopyRun env req
      [WriteFile (StreamCopy.fileListPath env)
                 (StreamCopy.fileList env (path i) (path m));
       Respond (mkResponse 500 (Text ("Error: " ++ msg)%string))]
| CopyTranscodeFailed i li m lm msg :
    files req = Some (mkFiles (Some (i :: li)) (Some (m :: lm))) ->
    writeFileFails env = None ->
    ffmpegRun env (copyCommand env) = Some msg ->
    CopyRun env req
      [WriteFile (StreamCopy.fileListPath env)
                 (StreamCopy.fileList env (path i) (path m));
       Ffmpeg (copyCommand env);
       Respond (mkResponse 500 (Text ("Error: " ++ msg)%string))]
| CopyDelivered i li m lm calls :
    files req = Some (mkFiles (Some (i :: li)) (Some (m :: lm))) ->
    writeFileFails env = None ->
    ffmpegRun env (copyCommand env) = None ->
    cleanupCalls [path i; path m; StreamCopy.fileListPath env;
                  StreamCopy.outputPath env] calls ->
    CopyRun env req
      ([WriteFile (StreamCopy.fileListPath env)
                  (StreamCopy.fileList env (path i) (path m));
        Ffmpeg (copyCommand env);
        Respond (mkResponse 200 (FileBody (resolve env (StreamCopy.outputPath env))))]
         ++ calls).

Definition transcodes (w : World) : list Command :=
  flat_map (fun ev => match ev with Ffmpeg cmd => [cmd] | _ => [] end) (trace w).

(** ** Reading a plan *)

Definition isSome {A} (o : option A) : bool :=
  match o with Some _ => true | None => false end.

(** Every pad a stage produces is read by a stage or mapped. *)
Definition connected (p : Plan) : bool :=
  forallb (fun l => mem l (consumedBy (filters p))
                    || mem l (mapLabels (options p)))
          (producedBy (filters p)).

(** The pads read by the stage that produces [label]. *)
Fixpoint sourcesOf (label : string) (stages : list string) : list string :=
  match stages with
  | [] => []
  | s :: rest =>
      if mem label (outputPads s) then inputPads s else sourcesOf label rest
  end.

(** The raw pads a label is made of, in reading order, following the
    stages back for at most [depth] steps. *)
Fixpoint rawSources (depth : nat) (stages : list string) (label : string)
  : list string :=
  match depth with
  | O => [label]
  | S d =>
      match sourcesOf label stages with
      | [] => [label]
      | ins => flat_map (rawSources d stages) ins
      end
  end.

Definition endsWith (suffix s : string) : bool :=
  startsWith (srev suffix) (srev s).

Definition videoPads (pads : list string) : list string :=
  filter (endsWith ":v]") pads.

Definition audioPads (pads : list string) : list string :=
  filter (endsWith ":a]") pads.

(** ** Lemmas on strings and pads *)

Lemma mem_In (x : string) (l : list string) : mem x l = true <-> In x l.
Proof.
  unfold mem. rewrite existsb_exists. split.
  - intros [y [Hy Heq]]. apply String.eqb_eq in Heq. now subst.
  - intros H. exists x. split; [assumption | apply String.eqb_refl].
Qed.

Lemma append_cancel_l (p a b : string) :
  (p ++ a)%string = (p ++ b)%string -> a = b.
Proof.
  induction p as [|c p IH]; simpl; intros H.
  - exact H.
  - injection H as H. now apply IH.
Qed.

Lemma length_append (a b : string) :
  String.length (a ++ b) = String.length a + String.length b.
Proof.
  induction a as [|c a IH]; simpl; [reflexivity | now rewrite IH].
Qed.

Lemma append_cancel_r (s a b : string) :
  (a ++ s)%string = (b ++ s)%string -> a = b.
Proof.
  revert b. induction a as [|c a IH]; intros [|d b] H; simpl in H.
  - reflexivity.
  - apply (f_equal String.length) in H. simpl in H.
    rewrite length_append in H. lia.
  - apply (f_equal String.length) in H. simpl in H.
    rewrite length_append in H. lia.
  - injection H as Hc H. subst d. f_equal. now apply IH.
Qed.

Lemma decimal_inj (n n' : N) : decimal n = decimal n' -> n = n'.
Proof.
  unfold decimal. intros H.
  apply DecimalN.Unsigned.to_uint_inj.
  assert (E : NilEmpty.uint_of_string (NilEmpty.string_of_uint (N.to_uint n))
              = NilEmpty.uint_of_string (NilEmpty.string_of_uint (N.to_uint n')))
    by now rewrite H.
  rewrite !NilEmpty.usu in E. now injection E.
Qed.

(** The boolean check of the stages means what the invariant says: a pad
    read at position [k] is raw or comes out of a stage before [k]. *)
Lemma stagesOk_sound (raw : list string) :
  forall stages produced,
    stagesOk raw produced stages = true ->
    forall k s, nth_error stages k = Some s ->
    forall l, In l (inputPads s) ->
      In l raw \/ In l produced \/ In l (producedBy (firstn k stages)).
Proof.
  induction stages as [|s0 rest IH]; intros produced Hok k s Hk l Hl.
  - destruct k; discriminate.
  - simpl in Hok. apply andb_true_iff in Hok as [Hhead Hrest].
    destruct k as [|k]; simpl in Hk.
    + injection Hk as <-.
      rewrite forallb_forall in Hhead. specialize (Hhead l Hl).
      apply orb_true_iff in Hhead as [H|H]; apply mem_In in H; auto.
    + destruct (IH _ Hrest k s Hk l Hl) as [H|[H|H]].
      * now left.
      * apply in_app_or in H as [H|H]; [now (right; left) |].
        right; right. simpl. apply in_or_app. now left.
      * right; right. simpl. apply in_or_app. now right.
Qed.

Lemma wellFormed_no_dangling (i m : bool) (p : Plan) :
  wellFormed i m p = true ->
  (forall k s, nth_error (filters p) k = Some s ->
     forall l, In l (inputPads s) ->
       In l (rawPads i m) \/ In l (producedBy (firstn k (filters p))))
  /\ (forall l, In l (mapLabels (options p)) ->
        In l (rawPads i m) \/ In l (producedBy (filters p))).
Proof.
  unfold wellFormed. intros H.
  apply andb_true_iff in H as [H Hmap].
  apply andb_true_iff in H as [Hst _]. split.
  - intros k s Hk l Hl.
    destruct (stagesOk_sound _ _ _ Hst k s Hk l Hl) as [?|[[]|?]]; auto.
  - intros l Hl. rewrite forallb_forall in Hmap.
    specialize (Hmap l Hl).
    apply orb_true_iff in Hmap as [?|?]; [left | right]; now apply mem_In.
Qed.

Ltac no_such_pad :=
  let H := fresh in
  intros H; cbv in H;
  repeat (destruct H as [H|H]; [discriminate H |]); exact H.

(** ** The planners: labels, pads and stage counts *)

(** C1. In the fused-concat and the separate-audio handlers, for every
    pair of audio flags the options map the video label [[v]], and they
    map an audio label exactly when at least one input has audio. *)
Theorem C1_final_labels (introHasA mainHasA : bool) :
  (finalVideoLabel (FusedConcat.outputOptions introHasA mainHasA) = Some "[v]"
   /\ (finalAudioLabel (FusedConcat.outputOptions introHasA mainHasA) <> None
       <-> introHasA = true \/ mainHasA = true))
  /\ (finalVideoLabel (SeparateAudio.outputOptions introHasA mainHasA) = Some "[v]"
      /\ (finalAudioLabel (SeparateAudio.outputOptions introHasA mainHasA) <> None
          <-> introHasA = true \/ mainHasA = true)).
Proof.
  destruct introHasA, mainHasA; cbv;
    repeat split; intros; try discriminate; try tauto; auto;
    match goal with H : _ \/ _ |- _ => destruct H; discriminate end.
Qed.

(** C2. In the fused-concat handler, when only main has audio, the options
    map the audio label [[a]], which is not a raw pad and which no stage
    of the plan produces: the concat is video only, and the pad [[a1]] that
    the resample stage produces is neither read nor mapped.  The
    separate-audio handler maps [[a_main]] there, which its resample stage
    produces. *)
Theorem C2_fused_concat_main_only_maps_unproduced_pad :
  finalAudioLabel (FusedConcat.outputOptions false true) = Some "[a]"
  /\ ~ In "[a]" (producedBy (FusedConcat.allFilters false true))
  /\ ~ In "[a]" (rawPads true true)
  /\ producedBy (FusedConcat.allFilters false true) = ["[v0]"; "[v1]"; "[a1]"; "[v]"]
  /\ ~ In "[a1]" (consumedBy (FusedConcat.allFilters false true))
  /\ wellFormed false true
       (mkPlan (FusedConcat.allFilters false true)
               (FusedConcat.outputOptions false true)) = false
  /\ finalAudioLabel (SeparateAudio.outputOptions false true) = Some "[a_main]"
  /\ In "[a_main]" (producedBy (SeparateAudio.allFilters false true)).
Proof.
  repeat split; try reflexivity; try no_such_pad.
  cbv. tauto.
Qed.

(** Every plan of the separate-audio handler keeps the pad invariant. *)
Lemma SeparateAudio_wellFormed (i m : bool) :
  wellFormed i m (mkPlan (SeparateAudio.allFilters i m)
                         (SeparateAudio.outputOptions i m)) = true.
Proof. destruct i, m; reflexivity. Qed.

Lemma SilenceSynthesis_wellFormed (i m : bool) :
  wellFormed i m (mkPlan (SilenceSynthesis.allFilters i m)
                         SilenceSynthesis.outputOptions) = true.
Proof. destruct i, m; reflexivity. Qed.

(** C3, as stated, fails in the fused-concat handler: with audio in the
    intro only, the mapped audio label is the concat's [[a]], and the
    concat reads the intro's pad [[a0]] twice, once per segment. *)
Lemma C3_fused_concat_repeats_intro_audio :
  finalAudioLabel (FusedConcat.outputOptions true false) = Some "[a]"
  /\ inputPads (FusedConcat.concatFilter true false)
     = ["[v0]"; "[a0]"; "[v1]"; "[a0]"]
  /\ ~ introOnlyAsClaimed (FusedConcat.audioFilters true false)
                          (FusedConcat.allFilters true false)
                          (FusedConcat.outputOptions true false).
Proof.
  repeat split.
  intros [pad [[stage [Hone [_ [Hout _]]]] [Hlabel _]]].
  injection Hlabel as <-.
  injection Hone as <-.
  discriminate Hout.
Qed.

(** C3, amended. With audio in the intro only, both handlers resample
    the intro's audio alone.  The separate-audio handler maps that pad
    [[a_intro]] itself, read by no other stage, beside the video-only
    concat of [[v0]] and [[v1]].  The fused-concat handler feeds its pad
    [[a0]] to both audio inputs of the one four-pad concat and maps the
    concat's outputs [[v]] and [[a]]. *)
Theorem C3_intro_only_audio :
  introOnlyAsClaimed (SeparateAudio.audioFilters true false)
                     (SeparateAudio.allFilters true false)
                     (SeparateAudio.outputOptions true false)
  /\ finalAudioLabel (SeparateAudio.outputOptions true false) = Some "[a_intro]"
  /\ resamplesOnly "[0:a]" (FusedConcat.audioFilters true false) "[a0]"
  /\ inputPads (FusedConcat.concatFilter true false)
     = ["[v0]"; "[a0]"; "[v1]"; "[a0]"]
  /\ outputPads (FusedConcat.concatFilter true false) = ["[v]"; "[a]"]
  /\ finalVideoLabel (FusedConcat.outputOptions true false) = Some "[v]"
  /\ finalAudioLabel (FusedConcat.outputOptions true false) = Some "[a]".
Proof.
  split; [| repeat split].
  - exists "[a_intro]". repeat split.
    + eexists. repeat split. cbv. tauto.
    + no_such_pad.
    + exists "[v0][v1]concat=n=2:v=1:a=0[v]". repeat split. cbv. tauto.
  - eexists. repeat split. cbv. tauto.
Qed.

(** C4, as stated, fails in the silence-synthesis handler: with no audio
    in either input its [audioFilters] holds two stages, both synthesized
    silence, where the property counts none. *)
Lemma C4_silence_synthesis_has_two_audio_stages :
  length (SilenceSynthesis.audioFilters false false) = 2
  /\ countStages isSilence (SilenceSynthesis.audioFilters false false) = 2
  /\ claimedAudioStages false false = 0.
Proof. repeat split. Qed.

(** C4, amended. In the separate-audio handler [audioFilters] holds 3, 1,
    1 or 0 stages as the property says: one normalize stage per input with
    audio and one audio concat when both have it.  In the
    silence-synthesis handler [audioFilters] always holds two stages, a
    normalize stage for each input with audio and a silence stage for each
    input without, and no concat of its own: the one four-pad concat joins
    the audio. *)
Theorem C4_audio_stage_counts (introHasA mainHasA : bool) :
  (length (SeparateAudio.audioFilters introHasA mainHasA)
     = claimedAudioStages introHasA mainHasA
   /\ countStages isNormalize (SeparateAudio.audioFilters introHasA mainHasA)
      = Nat.b2n introHasA + Nat.b2n mainHasA
   /\ countStages isConcat (SeparateAudio.audioFilters introHasA mainHasA)
      = Nat.b2n (introHasA && mainHasA))
  /\ (length (SilenceSynthesis.audioFilters introHasA mainHasA) = 2
      /\ countStages isNormalize (SilenceSynthesis.audioFilters introHasA mainHasA)
         = Nat.b2n introHasA + Nat.b2n mainHasA
      /\ countStages isSilence (SilenceSynthesis.audioFilters introHasA mainHasA)
         = Nat.b2n (negb introHasA) + Nat.b2n (negb mainHasA)
      /\ countStages isConcat (SilenceSynthesis.audioFilters introHasA mainHasA) = 0
      /\ inputPads SilenceSynthesis.concatFilter = ["[v0]"; "[a0]"; "[v1]"; "[a1]"]
      /\ outputPads SilenceSynthesis.concatFilter = ["[v]"; "[a]"]).
Proof. destruct introHasA, mainHasA; repeat split. Qed.

(** C5, as stated, fails in the reject-asymmetric handler: audio in the
    intro only, and no audio at all, end in the 400 answer, with no plan. *)
Lemma C5_reject_asymmetric_refuses :
  RejectAsymmetric.plan true false
    = inl "Unsupported combination: intro has audio but main does not. Provide main clip with audio or remove intro audio."
  /\ RejectAsymmetric.plan false false
     = inl "Unsupported combination: neither input has audio. Provide a main clip with audio."
  /\ ~ (forall i m, exists p, RejectAsymmetric.plan i m = inr p).
Proof.
  repeat split.
  intros H. destruct (H true false) as [p Hp]. discriminate Hp.
Qed.

(** C5, amended. The separate-audio and silence-synthesis handlers plan
    every combination, and the plan is well formed.  The fused-concat
    handler plans every combination too; its plan is well formed when the
    two flags agree and when only the intro has audio.  The
    reject-asymmetric handler plans exactly when main has audio, and that
    plan is well formed; the other two combinations are answered 400. *)
Theorem C5_planning_outcomes (introHasA mainHasA : bool) :
  (exists p, SeparateAudio.plan introHasA mainHasA = inr p
             /\ wellFormed introHasA mainHasA p = true)
  /\ (exists p, SilenceSynthesis.plan introHasA mainHasA = inr p
                /\ wellFormed introHasA mainHasA p = true)
  /\ (exists p, FusedConcat.plan introHasA mainHasA = inr p)
  /\ (exists p, FusedConcat.plan introHasA introHasA = inr p
                /\ wellFormed introHasA introHasA p = true)
  /\ (exists p, FusedConcat.plan true false = inr p
                /\ wellFormed true false p = true)
  /\ ((exists p, RejectAsymmetric.plan introHasA mainHasA = inr p)
      <-> mainHasA = true)
  /\ (exists p, RejectAsymmetric.plan introHasA true = inr p
                /\ wellFormed introHasA true p = true).
Proof.
  destruct introHasA, mainHasA;
    repeat match goal with
           | H : false = true |- _ => discriminate H
           | |- _ /\ _ => split
           | |- _ <-> _ => split
           | |- exists _, _ => eexists
           | |- _ = _ => reflexivity
           | |- _ -> _ => intros
           | H : exists _, _ = inr _ |- _ => destruct H; discriminate
           end.
Qed.

(** C10. In the silence-synthesis handler the stage for an input without
    audio reads no pad at all: it is [anullsrc] followed by [atrim=0:1],
    which keeps one second, and it produces the input's audio pad; the
    four-pad concat then reads [[a0]] and [[a1]] whatever their origin. *)
Theorem C10_silence_is_one_second (introHasA mainHasA : bool) :
  nth_error (SilenceSynthesis.allFilters false mainHasA) 2
    = Some "anullsrc=cl=stereo:r=48000,atrim=0:1[a0]"
  /\ nth_error (SilenceSynthesis.allFilters introHasA false) 3
     = Some "anullsrc=cl=stereo:r=48000,atrim=0:1[a1]"
  /\ inputPads (SilenceSynthesis.introAudio false) = []
  /\ inputPads (SilenceSynthesis.mainAudio false) = []
  /\ outputPads (SilenceSynthesis.introAudio false) = ["[a0]"]
  /\ outputPads (SilenceSynthesis.mainAudio false) = ["[a1]"]
  /\ filterChain (SilenceSynthesis.introAudio false)
     = ["anullsrc=cl=stereo:r=48000"; "atrim=0:1"]
  /\ filterChain (SilenceSynthesis.mainAudio false)
     = ["anullsrc=cl=stereo:r=48000"; "atrim=0:1"]
  /\ trimSeconds (SilenceSynthesis.introAudio false) = Some 1%N
  /\ trimSeconds (SilenceSynthesis.mainAudio false) = Some 1%N
  /\ nth_error (SilenceSynthesis.allFilters introHasA mainHasA) 4
     = Some SilenceSynthesis.concatFilter
  /\ inputPads SilenceSynthesis.concatFilter = ["[v0]"; "[a0]"; "[v1]"; "[a1]"]
  /\ concatAudioPadsAgree introHasA mainHasA.
Proof. destruct introHasA, mainHasA; repeat split. Qed.

(** ** The handlers: what a run may emit *)

Section EmitsOnly.

Variable P : Event -> Prop.

Lemma emitsOnly_ret {A} (a : A) : emitsOnly P (ret a).
Proof. intros w. exists []. simpl. now rewrite app_nil_r. Qed.

Lemma emitsOnly_throw {A} (e : Exn) : emitsOnly P (@throw A e).
Proof. intros w. exists []. simpl. now rewrite app_nil_r. Qed.

Lemma emitsOnly_bind {A B} (m : M A) (k : A -> M B) :
  emitsOnly P m -> (forall a, emitsOnly P (k a)) -> emitsOnly P (bind m k).
Proof.
  intros Hm Hk w. unfold bind.
  destruct (Hm w) as [more [Htr Hmore]].
  destruct (m w) as [[e|a] w']; simpl in *.
  - now exists more.
  - destruct (Hk a w') as [more' [Htr' Hmore']].
    exists (more ++ more'). split.
    + now rewrite Htr', Htr, app_assoc.
    + apply Forall_app. now split.
Qed.

Lemma emitsOnly_tryCatch {A} (m : M A) (h : Exn -> M A) :
  emitsOnly P m -> (forall e, emitsOnly P (h e)) -> emitsOnly P (tryCatch m h).
Proof.
  intros Hm Hh w. unfold tryCatch.
  destruct (Hm w) as [more [Htr Hmore]].
  destruct (m w) as [[e|a] w']; simpl in *.
  - destruct (Hh e w') as [more' [Htr' Hmore']].
    exists (more ++ more'). split.
    + now rewrite Htr', Htr, app_assoc.
    + apply Forall_app. now split.
  - now exists more.
Qed.

Lemma emitsOnly_emit (ev : Event) : P ev -> emitsOnly P (emit ev).
Proof. intros Hev w. exists [ev]. simpl. split; [reflexivity | now constructor]. Qed.

Lemma emitsOnly_respond (code : N) (b : Body) :
  P (Respond (mkResponse code b)) -> emitsOnly P (respond code b).
Proof. apply emitsOnly_emit. Qed.

Lemma emitsOnly_unlinkSync (p : string) :
  P (Unlink p) -> emitsOnly P (unlinkSync p).
Proof.
  intros Hev w. exists [Unlink p]. unfold unlinkSync.
  destruct (mem p (tmpFiles w)); simpl; (split; [reflexivity | now constructor]).
Qed.

Lemma emitsOnly_writeFileSync (env : Env) (p content : string) :
  P (WriteFile p content) -> emitsOnly P (writeFileSync env p content).
Proof.
  intros Hev w. exists [WriteFile p content]. unfold writeFileSync.
  destruct (writeFileFails env); simpl; (split; [reflexivity | now constructor]).
Qed.

Lemma emitsOnly_runFfmpeg (env : Env) (cmd : Command) :
  P (Ffmpeg cmd) -> emitsOnly P (runFfmpeg env cmd).
Proof.
  intros Hev w. exists [Ffmpeg cmd]. unfold runFfmpeg.
  destruct (ffmpegRun env cmd); [destruct (leavesPartialOutput env) |]; simpl;
    (split; [reflexivity | now constructor]).
Qed.

Lemma emitsOnly_firstPath (field : option (list UploadedFile)) :
  emitsOnly P (firstPath field).
Proof.
  destruct field as [[|f l]|]; simpl;
    [apply emitsOnly_throw | apply emitsOnly_ret | apply emitsOnly_throw].
Qed.

Lemma emitsOnly_probeBoth (env : Env) (introPath mainPath : string) :
  P (Ffprobe introPath) -> P (Ffprobe mainPath) ->
  emitsOnly P (probeBoth env introPath mainPath).
Proof.
  intros Hi Hm. unfold probeBoth.
  apply emitsOnly_bind; [now apply emitsOnly_emit | intros _].
  apply emitsOnly_bind; [now apply emitsOnly_emit | intros _].
  destruct (ffprobe env introPath), (ffprobe env mainPath);
    (apply emitsOnly_throw || apply emitsOnly_ret).
Qed.

Lemma emitsOnly_cleanup (a b c : string) :
  P (Unlink a) -> P (Unlink b) -> P (Unlink c) ->
  emitsOnly P (cleanup a b c).
Proof.
  intros Ha Hb Hc. unfold cleanup.
  apply emitsOnly_tryCatch; [| intros e; apply emitsOnly_ret].
  repeat (apply emitsOnly_bind; [now apply emitsOnly_unlinkSync | intros _]).
  now apply emitsOnly_unlinkSync.
Qed.

Lemma emitsOnly_copy_cleanup (a b c d : string) :
  P (Unlink a) -> P (Unlink b) -> P (Unlink c) -> P (Unlink d) ->
  emitsOnly P (StreamCopy.cleanup a b c d).
Proof.
  intros Ha Hb Hc Hd. unfold StreamCopy.cleanup.
  apply emitsOnly_tryCatch; [| intros e; apply emitsOnly_ret].
  repeat (apply emitsOnly_bind; [now apply emitsOnly_unlinkSync | intros _]).
  now apply emitsOnly_unlinkSync.
Qed.

(** From an empty trace, the whole trace is in [P]. *)
Lemma emitsOnly_run {A} (m : M A) (files : list string) :
  emitsOnly P m -> Forall P (trace (snd (m (mkWorld files [])))).
Proof.
  intros H. destruct (H (mkWorld files [])) as [more [Htr Hmore]].
  now rewrite Htr.
Qed.

End EmitsOnly.

(** Running a [try] block one statement at a time. *)
Lemma tryCatch_step {A B} (m : M A) (k : A -> M B) (h : Exn -> M B)
      (w w' : World) (a : A) :
  m w = (inr a, w') -> tryCatch (bind m k) h w = tryCatch (k a) h w'.
Proof. intros H. unfold tryCatch, bind. now rewrite H. Qed.

Lemma tryCatch_caught {A B} (m : M A) (k : A -> M B) (h : Exn -> M B)
      (w w' : World) (e : Exn) :
  m w = (inl e, w') -> tryCatch (bind m k) h w = h e w'.
Proof. intros H. unfold tryCatch, bind. now rewrite H. Qed.

Lemma streamCopy_emits (env : Env) (req : Request) :
  emitsOnly (streamCopyEvent env) (StreamCopy.mergeVideos env req).
Proof.
  unfold StreamCopy.mergeVideos, StreamCopy.fieldPath.
  apply emitsOnly_tryCatch; [| intros e; now apply emitsOnly_respond].
  apply emitsOnly_bind; [| intros introPath].
  { destruct (files req); [apply emitsOnly_firstPath | apply emitsOnly_throw]. }
  apply emitsOnly_bind; [| intros mainPath].
  { destruct (files req); [apply emitsOnly_firstPath | apply emitsOnly_throw]. }
  apply emitsOnly_bind; [| intros _].
  { apply emitsOnly_writeFileSync. simpl. split; [reflexivity | eauto]. }
  apply emitsOnly_bind; [| intros _].
  { apply emitsOnly_runFfmpeg. reflexivity. }
  apply emitsOnly_bind; [now apply emitsOnly_respond | intros _].
  now apply emitsOnly_copy_cleanup.
Qed.

Lemma mergeVideos_emits (plan : bool -> bool -> string + Plan)
      (env : Env) (req : Request) :
  emitsOnly (writesTo (outputPath env)) (mergeVideos plan env req).
Proof.
  unfold mergeVideos.
  apply emitsOnly_tryCatch; [| intros e; now apply emitsOnly_respond].
  destruct (missingFiles req); [now apply emitsOnly_respond |].
  apply emitsOnly_bind; [apply emitsOnly_firstPath | intros introPath].
  apply emitsOnly_bind; [apply emitsOnly_firstPath | intros mainPath].
  apply emitsOnly_bind; [now apply emitsOnly_probeBoth | intros infos].
  destruct (plan _ _) as [unsupported | p]; [now apply emitsOnly_respond |].
  apply emitsOnly_bind; [| intros _].
  { apply emitsOnly_runFfmpeg. reflexivity. }
  apply emitsOnly_bind; [now apply emitsOnly_respond | intros _].
  now apply emitsOnly_cleanup.
Qed.

(** C9. A run of the stream-copy handler never probes and never passes a
    filter graph: whatever the request and the environment, its only
    ffmpeg command reads the list file with [-f concat -safe 0] and writes
    with [-c copy], and the run is the same whatever a probe would have
    answered.  When both files came and the list file could be written,
    the list names the two uploads and that command is run. *)
Theorem C9_stream_copy_no_probe_no_filter (env : Env) (req : Request) :
  Forall (streamCopyEvent env)
         (trace (finalWorld (StreamCopy.mergeVideos env) req))
  /\ forallb (fun ev => negb (isProbe ev) && negb (isFilterRun ev))
             (trace (finalWorld (StreamCopy.mergeVideos env) req)) = true
  /\ (forall probe,
        finalWorld (StreamCopy.mergeVideos (withProbe env probe)) req
        = finalWorld (StreamCopy.mergeVideos env) req)
  /\ (forall i li m lm,
        files req = Some (mkFiles (Some (i :: li)) (Some (m :: lm))) ->
        writeFileFails env = None ->
        exists rest,
          trace (finalWorld (StreamCopy.mergeVideos env) req)
          = WriteFile (StreamCopy.fileListPath env)
                      (StreamCopy.fileList env (path i) (path m))
            :: Ffmpeg (copyCommand env) :: rest).
Proof.
  assert (Hall : Forall (streamCopyEvent env)
                        (trace (finalWorld (StreamCopy.mergeVideos env) req))).
  { apply emitsOnly_run, streamCopy_emits. }
  split; [exact Hall |]. split; [| split].
  - apply forallb_forall. intros ev Hev.
    rewrite Forall_forall in Hall. specialize (Hall ev Hev).
    destruct ev as [f|cmd|f c|f|r]; simpl in *; try reflexivity.
    + contradiction.
    + now subst cmd.
  - intros probe. reflexivity.
  - intros i li m lm Hfiles Hwrite.
    unfold finalWorld, StreamCopy.mergeVideos, StreamCopy.fieldPath, arrival.
    rewrite Hfiles.
    erewrite tryCatch_step by reflexivity.
    erewrite tryCatch_step by reflexivity.
    erewrite tryCatch_step
      by (unfold writeFileSync; rewrite Hwrite; reflexivity).
    fold (copyCommand env). unfold uploads; rewrite Hfiles; simpl.
    set (w1 := mkWorld _ _).
    destruct (ffmpegRun env (copyCommand env)) as [msg|] eqn:Hrun.
    + erewrite tryCatch_caught
        by (unfold runFfmpeg; rewrite Hrun; reflexivity).
      destruct (leavesPartialOutput env); simpl; eexists; reflexivity.
    + erewrite tryCatch_step
        by (unfold runFfmpeg; rewrite Hrun; reflexivity).
      match goal with
      | |- context [tryCatch ?m ?h ?w] =>
          assert (Hrest : emitsOnly (fun _ => True) (tryCatch m h));
          [| destruct (Hrest w) as [more [Htr _]]]
      end.
      * apply emitsOnly_tryCatch; [| intros e; now apply emitsOnly_respond].
        apply emitsOnly_bind; [now apply emitsOnly_respond | intros _].
        now apply emitsOnly_copy_cleanup.
      * rewrite Htr. simpl. eexists; reflexivity.
Qed.

(** ** The handlers: status codes *)

Lemma missing_rejected (plan : bool -> bool -> string + Plan)
      (env : Env) (req : Request) :
  missingFiles req = true ->
  finalWorld (mergeVideos plan env) req
  = mkWorld (uploads req)
            [Respond (mkResponse 400 (JsonError missingFilesMessage))].
Proof.
  intros H. unfold finalWorld, mergeVideos, tryCatch. now rewrite H.
Qed.

Lemma streamCopy_missing (env : Env) (req : Request) :
  missingFiles req = true ->
  exists msg,
    finalWorld (StreamCopy.mergeVideos env) req
    = mkWorld (uploads req)
              [Respond (mkResponse 500 (Text ("Error: " ++ msg)%string))].
Proof.
  destruct req as [[[[[|i li]|] [[|m lm]|]]|]]; cbn; intros H;
    try discriminate H; eexists; reflexivity.
Qed.

Lemma probe_failure (plan : bool -> bool -> string + Plan) (env : Env)
      (req : Request) (i m : UploadedFile) (li lm : list UploadedFile) :
  files req = Some (mkFiles (Some (i :: li)) (Some (m :: lm))) ->
  (exists e, ffprobe env (path i) = inl e)
  \/ (exists e, ffprobe env (path m) = inl e) ->
  exists msg,
    finalWorld (mergeVideos plan env) req
    = mkWorld (uploads req)
              [Ffprobe (path i); Ffprobe (path m);
               Respond (mkResponse 500 (JsonError msg))].
Proof.
  intros Hfiles Hfail.
  assert (Hpresent : missingFiles req = false)
    by (unfold missingFiles; now rewrite Hfiles).
  unfold finalWorld, mergeVideos, arrival. rewrite Hpresent, Hfiles.
  erewrite tryCatch_step by reflexivity.
  erewrite tryCatch_step by reflexivity.
  unfold probeBoth, tryCatch, bind. simpl.
  destruct (ffprobe env (path i)) as [e1|a], (ffprobe env (path m)) as [e2|b];
    simpl; try (eexists; reflexivity).
  destruct Hfail as [[e He]|[e He]]; discriminate He.
Qed.

Lemma transcode_failure (plan : bool -> bool -> string + Plan) (env : Env)
      (req : Request) (i m : UploadedFile) (li lm : list UploadedFile)
      (a b : option ProbeData) (p : Plan) (msg : string) :
  files req = Some (mkFiles (Some (i :: li)) (Some (m :: lm))) ->
  ffprobe env (path i) = inr a ->
  ffprobe env (path m) = inr b ->
  plan (hasAudio a) (hasAudio b) = inr p ->
  ffmpegRun env (mkCommand [path i; path m] [] (Some (filters p)) (options p)
                           (outputPath env)) = Some msg ->
  trace (finalWorld (mergeVideos plan env) req)
  = [Ffprobe (path i); Ffprobe (path m);
     Ffmpeg (mkCommand [path i; path m] [] (Some (filters p)) (options p)
                       (outputPath env));
     Respond (mkResponse 500 (JsonError msg))].
Proof.
  intros Hfiles Ha Hb Hplan Hrun.
  assert (Hpresent : missingFiles req = false)
    by (unfold missingFiles; now rewrite Hfiles).
  unfold finalWorld, mergeVideos, arrival. rewrite Hpresent, Hfiles.
  erewrite tryCatch_step by reflexivity.
  erewrite tryCatch_step by reflexivity.
  erewrite tryCatch_step
    by (unfold probeBoth, bind; simpl; rewrite Ha, Hb; reflexivity).
  simpl. rewrite Hplan.
  erewrite tryCatch_caught
    by (unfold runFfmpeg; rewrite Hrun; reflexivity).
  destruct (leavesPartialOutput env); reflexivity.
Qed.

(** C6, as stated, fails in the stream-copy handler: with the main field
    absent it answers 500 with a plain-text body, the message of the
    exception that reading the field raised. *)
Lemma C6_stream_copy_answers_500_text :
  exists msg,
    finalWorld (StreamCopy.mergeVideos sampleEnv) copyNoMainRequest
    = mkWorld ["uploads/8f3a"]
              [Respond (mkResponse 500 (Text ("Error: " ++ msg)%string))].
Proof. eexists. reflexivity. Qed.

(** C6, amended. In the four filter-graph handlers a request without the
    intro or the main field is answered 400 with [{ error: message }], and
    that answer is all the run does: nothing is probed, planned or
    transcoded.  With both files there, a failed probe and a failed
    transcode are answered 500 with [{ error: message }].  The stream-copy
    handler has no check of the fields: a missing field is answered 500
    with the text ["Error: " + message], before anything is written or
    transcoded. *)
Theorem C6_status_of_missing_fields_and_failures
        (plan : bool -> bool -> string + Plan) (env : Env) (req : Request) :
  (missingFiles req = true ->
     finalWorld (mergeVideos plan env) req
     = mkWorld (uploads req)
               [Respond (mkResponse 400 (JsonError missingFilesMessage))]
     /\ exists msg,
          finalWorld (StreamCopy.mergeVideos env) req
          = mkWorld (uploads req)
                    [Respond (mkResponse 500 (Text ("Error: " ++ msg)%string))])
  /\ (forall i li m lm,
        files req = Some (mkFiles (Some (i :: li)) (Some (m :: lm))) ->
        ((exists e, ffprobe env (path i) = inl e)
         \/ (exists e, ffprobe env (path m) = inl e) ->
         exists msg,
           finalWorld (mergeVideos plan env) req
           = mkWorld (uploads req)
                     [Ffprobe (path i); Ffprobe (path m);
                      Respond (mkResponse 500 (JsonError msg))])
        /\ (forall a b p msg,
              ffprobe env (path i) = inr a ->
              ffprobe env (path m) = inr b ->
              plan (hasAudio a) (hasAudio b) = inr p ->
              ffmpegRun env (mkCommand [path i; path m] [] (Some (filters p))
                                       (options p) (outputPath env)) = Some msg ->
              responses (finalWorld (mergeVideos plan env) req)
              = [mkResponse 500 (JsonError msg)])).
Proof.
  split.
  - intros H. split; [now apply missing_rejected | now apply streamCopy_missing].
  - intros i li m lm Hfiles. split.
    + exact (probe_failure plan env req i m li lm Hfiles).
    + intros a b p msg Ha Hb Hp Hrun. unfold responses.
      now rewrite (transcode_failure plan env req i m li lm a b p msg).
Qed.

Lemma C6_missing_main_witness :
  finalWorld (mergeVideos FusedConcat.plan sampleEnv) noMainRequest
  = mkWorld ["/tmp/video-merge-api/8f3a"]
            [Respond (mkResponse 400 (JsonError missingFilesMessage))]
  /\ exists msg,
       finalWorld (StreamCopy.mergeVideos sampleEnv) noMainRequest
       = mkWorld ["/tmp/video-merge-api/8f3a"]
                 [Respond (mkResponse 500 (Text ("Error: " ++ msg)%string))].
Proof.
  exact (proj1 (C6_status_of_missing_fields_and_failures
                  FusedConcat.plan sampleEnv noMainRequest) eq_refl).
Defined.

(** ** The handlers: temporary files *)

(** C7. Cleanup sits in the callback of [res.sendFile] alone.  A request
    whose intro cannot be probed is answered 500 and both uploads stay in
    storage, with no call of [unlinkSync]; a failed transcode leaves the
    partial output there as well; a request without the main field leaves
    the intro upload; and the same holds in the stream-copy handler, list
    file included.  On the delivered path each of the three files is
    unlinked once and storage is empty. *)
Theorem C7_failed_requests_keep_their_files :
  finalWorld (mergeVideos FusedConcat.plan brokenIntroEnv) sampleRequest
  = mkWorld ["/tmp/video-merge-api/8f3a"; "/tmp/video-merge-api/b21c"]
            [Ffprobe "/tmp/video-merge-api/8f3a";
             Ffprobe "/tmp/video-merge-api/b21c";
             Respond (mkResponse 500
                        (JsonError "Invalid data found when processing input"))]
  /\ tmpFiles (finalWorld (mergeVideos FusedConcat.plan failingTranscodeEnv)
                          sampleRequest)
     = ["/tmp/video-merge-api/merged_1730000000000.mp4";
        "/tmp/video-merge-api/8f3a"; "/tmp/video-merge-api/b21c"]
  /\ responses (finalWorld (mergeVideos FusedConcat.plan failingTranscodeEnv)
                           sampleRequest)
     = [mkResponse 500 (JsonError "ffmpeg exited with code 1")]
  /\ unlinks "/tmp/video-merge-api/8f3a"
             (finalWorld (mergeVideos FusedConcat.plan failingTranscodeEnv)
                         sampleRequest) = 0
  /\ tmpFiles (finalWorld (mergeVideos FusedConcat.plan sampleEnv) noMainRequest)
     = ["/tmp/video-merge-api/8f3a"]
  /\ tmpFiles (finalWorld (StreamCopy.mergeVideos failingTranscodeEnv) copyRequest)
     = ["uploads/merged_1730000000000.mp4"; "uploads/filelist_1730000000000.txt";
        "uploads/8f3a"; "uploads/b21c"]
  /\ tmpFiles (finalWorld (mergeVideos FusedConcat.plan sampleEnv) sampleRequest)
     = []
  /\ map (fun f => unlinks f (finalWorld (mergeVideos FusedConcat.plan sampleEnv)
                                         sampleRequest))
         ["/tmp/video-merge-api/8f3a"; "/tmp/video-merge-api/b21c";
          "/tmp/video-merge-api/merged_1730000000000.mp4"]
     = [1; 1; 1].
Proof. repeat split. Qed.

(** ** Output file names *)

Lemma merged_name_inj (dir : string) (t t' : N) :
  join dir ("merged_" ++ decimal t ++ ".mp4")%string
  = join dir ("merged_" ++ decimal t' ++ ".mp4")%string ->
  t = t'.
Proof.
  unfold join. intros H.
  apply append_cancel_l in H. apply (append_cancel_l "/") in H.
  apply (append_cancel_l "merged_") in H.
  apply append_cancel_r in H. now apply decimal_inj.
Qed.

(** C8, as stated, fails: two different requests served in the same
    millisecond are transcoded into the same output file. *)
Lemma C8_same_millisecond_same_output :
  sampleRequest <> otherRequest
  /\ transcodeOutputs (finalWorld (mergeVideos FusedConcat.plan sampleEnv)
                                  sampleRequest)
     = ["/tmp/video-merge-api/merged_1730000000000.mp4"]
  /\ transcodeOutputs (finalWorld (mergeVideos FusedConcat.plan sampleEnv)
                                  otherRequest)
     = ["/tmp/video-merge-api/merged_1730000000000.mp4"].
Proof. repeat split. discriminate. Qed.

(** C8, amended. The output file name is made of the temporary directory
    and the reading of the clock, and of nothing of the request: every
    transcode of a run writes to [outputPath], and within one temporary
    directory two runs get the same output name exactly when their clock
    readings are equal.  The same holds for the output name of the
    stream-copy handler. *)
Theorem C8_output_name_follows_the_clock
        (plan : bool -> bool -> string + Plan) (env1 env2 : Env)
        (req1 req2 : Request) :
  tmpdir env1 = tmpdir env2 ->
  (outputPath env1 = outputPath env2 <-> now env1 = now env2)
  /\ (StreamCopy.outputPath env1 = StreamCopy.outputPath env2
      <-> now env1 = now env2)
  /\ Forall (writesTo (outputPath env1))
            (trace (finalWorld (mergeVideos plan env1) req1))
  /\ Forall (writesTo (outputPath env2))
            (trace (finalWorld (mergeVideos plan env2) req2)).
Proof.
  intros Hdir. repeat split.
  - unfold outputPath, TMP. rewrite Hdir. apply merged_name_inj.
  - unfold outputPath, TMP. intros H. now rewrite Hdir, H.
  - apply merged_name_inj.
  - unfold StreamCopy.outputPath. intros H. now rewrite H.
  - apply emitsOnly_run, mergeVideos_emits.
  - apply emitsOnly_run, mergeVideos_emits.
Qed.

Lemma C8_same_clock_witness :
  (outputPath sampleEnv = outputPath failingTranscodeEnv
   <-> now sampleEnv = now failingTranscodeEnv)
  /\ (StreamCopy.outputPath sampleEnv = StreamCopy.outputPath failingTranscodeEnv
      <-> now sampleEnv = now failingTranscodeEnv)
  /\ Forall (writesTo (outputPath sampleEnv))
            (trace (finalWorld (mergeVideos FusedConcat.plan sampleEnv)
                               sampleRequest))
  /\ Forall (writesTo (outputPath failingTranscodeEnv))
            (trace (finalWorld (mergeVideos FusedConcat.plan failingTranscodeEnv)
                               otherRequest)).
Proof.
  exact (C8_output_name_follows_the_clock
           FusedConcat.plan sampleEnv failingTranscodeEnv
           sampleRequest otherRequest eq_refl).
Defined.

Lemma C9_both_files_witness :
  exists rest,
    trace (finalWorld (StreamCopy.mergeVideos sampleEnv) copyRequest)
    = WriteFile (StreamCopy.fileListPath sampleEnv)
                (StreamCopy.fileList sampleEnv "uploads/8f3a" "uploads/b21c")
      :: Ffmpeg (copyCommand sampleEnv) :: rest.
Proof.
  exact (proj2 (proj2 (proj2
           (C9_stream_copy_no_probe_no_filter sampleEnv copyRequest)))
           (mkUpload "uploads/8f3a") [] (mkUpload "uploads/b21c") []
           eq_refl eq_refl).
Defined.

(** ** Cleanup happens on the delivered path only *)

Lemma incl_addFile (p : string) (l : list string) : incl l (addFile p l).
Proof.
  unfold addFile. destruct (mem p l); [apply incl_refl | apply incl_tl, incl_refl].
Qed.

(** Whatever the planner and the environment: a run of a filter-graph
    handler that did not reach [res.sendFile] has unlinked nothing, and
    every upload of the request is still in storage. *)
Lemma undelivered_keeps_uploads (plan : bool -> bool -> string + Plan)
      (env : Env) (req : Request) :
  delivered (finalWorld (mergeVideos plan env) req) = false ->
  anyUnlink (finalWorld (mergeVideos plan env) req) = false
  /\ incl (uploads req) (tmpFiles (finalWorld (mergeVideos plan env) req)).
Proof.
  destruct (missingFiles req) eqn:Hmiss.
  { rewrite (missing_rejected plan env req Hmiss). simpl.
    intros _. split; [reflexivity | apply incl_refl]. }
  unfold finalWorld, mergeVideos, arrival. rewrite Hmiss.
  unfold missingFiles in Hmiss.
  destruct (files req) as [[[li|] [lm|]]|] eqn:Hfiles; try discriminate Hmiss.
  assert (Hup : uploads req = map path li ++ map path lm)
    by (unfold uploads; now rewrite Hfiles).
  rewrite Hup.
  destruct li as [|i li].
  { simpl. intros _. split; [reflexivity | apply incl_refl]. }
  erewrite tryCatch_step by reflexivity.
  destruct lm as [|m lm].
  { simpl. intros _. split; [reflexivity | apply incl_refl]. }
  erewrite tryCatch_step by reflexivity.
  destruct (ffprobe env (path i)) as [e1|a] eqn:Ha;
    [| destruct (ffprobe env (path m)) as [e2|b] eqn:Hb].
  - unfold probeBoth, tryCatch, bind. simpl. rewrite Ha.
    destruct (ffprobe env (path m)); simpl;
      intros _; (split; [reflexivity | apply incl_refl]).
  - unfold probeBoth, tryCatch, bind. simpl. rewrite Ha, Hb. simpl.
    intros _. split; [reflexivity | apply incl_refl].
  - erewrite tryCatch_step
      by (unfold probeBoth, bind; simpl; rewrite Ha, Hb; reflexivity).
    simpl. destruct (plan (hasAudio a) (hasAudio b)) as [unsupported|p].
    { simpl. intros _. split; [reflexivity | apply incl_refl]. }
    match goal with
    | |- context [runFfmpeg env ?c] =>
        destruct (ffmpegRun env c) as [msg|] eqn:Hrun
    end.
    + erewrite tryCatch_caught
        by (unfold runFfmpeg; rewrite Hrun; reflexivity).
      destruct (leavesPartialOutput env); simpl; intros _;
        (split; [reflexivity | apply incl_refl || apply incl_addFile]).
    + erewrite tryCatch_step
        by (unfold runFfmpeg; rewrite Hrun; reflexivity).
      erewrite tryCatch_step by reflexivity.
      match goal with
      | |- context [tryCatch ?c ?h ?w] =>
          assert (Hrest : emitsOnly (fun _ => True) (tryCatch c h));
          [| destruct (Hrest w) as [more [Htr _]]]
      end.
      * apply emitsOnly_tryCatch; [| intros e; now apply emitsOnly_respond].
        now apply emitsOnly_cleanup.
      * unfold delivered. rewrite Htr. simpl. discriminate.
Qed.

(** ** Cleanup *)

Lemma cleanupCalls_intro (files : list string) (n : nat) :
  0 < n <= length files -> cleanupCalls files (map Unlink (firstn n files)).
Proof. intros H. exists n. now split. Qed.

Lemma cleanup_calls (a b c : string) (w : World) :
  fst (cleanup a b c w) = inr tt
  /\ exists calls,
       trace (snd (cleanup a b c w)) = trace w ++ calls
       /\ cleanupCalls [a; b; c] calls.
Proof.
  unfold cleanup, tryCatch, bind, unlinkSync. simpl.
  destruct (mem a (tmpFiles w)); simpl;
    [destruct (mem b (removeFile a (tmpFiles w))); simpl;
     [destruct (mem c (removeFile b (removeFile a (tmpFiles w)))); simpl |] |];
    (split; [reflexivity |]); rewrite <- ?app_assoc; simpl.
  - exists (map Unlink (firstn 3 [a; b; c])). split; [reflexivity |].
    apply cleanupCalls_intro. simpl. lia.
  - exists (map Unlink (firstn 3 [a; b; c])). split; [reflexivity |].
    apply cleanupCalls_intro. simpl. lia.
  - exists (map Unlink (firstn 2 [a; b; c])). split; [reflexivity |].
    apply cleanupCalls_intro. simpl. lia.
  - exists (map Unlink (firstn 1 [a; b; c])). split; [reflexivity |].
    apply cleanupCalls_intro. simpl. lia.
Qed.

Lemma copy_cleanup_calls (a b c d : string) (w : World) :
  fst (StreamCopy.cleanup a b c d w) = inr tt
  /\ exists calls,
       trace (snd (StreamCopy.cleanup a b c d w)) = trace w ++ calls
       /\ cleanupCalls [a; b; c; d] calls.
Proof.
  unfold StreamCopy.cleanup, tryCatch, bind, unlinkSync. simpl.
  destruct (mem a (tmpFiles w)); simpl;
    [destruct (mem b (removeFile a (tmpFiles w))); simpl;
     [destruct (mem c (removeFile b (removeFile a (tmpFiles w)))); simpl;
      [destruct (mem d (removeFile c (removeFile b (removeFile a (tmpFiles w)))));
       simpl |] |] |];
    (split; [reflexivity |]); rewrite <- ?app_assoc; simpl.
  - exists (map Unlink (firstn 4 [a; b; c; d])). split; [reflexivity |].
    apply cleanupCalls_intro. simpl. lia.
  - exists (map Unlink (firstn 4 [a; b; c; d])). split; [reflexivity |].
    apply cleanupCalls_intro. simpl. lia.
  - exists (map Unlink (firstn 3 [a; b; c; d])). split; [reflexivity |].
    apply cleanupCalls_intro. simpl. lia.
  - exists (map Unlink (firstn 2 [a; b; c; d])). split; [reflexivity |].
    apply cleanupCalls_intro. simpl. lia.
  - exists (map Unlink (firstn 1 [a; b; c; d])). split; [reflexivity |].
    apply cleanupCalls_intro. simpl. lia.
Qed.

(** The one [try] around the three unlinks: cleanup never throws, and
    the first unlink that fails ends it.  With the intro upload already
    gone nothing is removed; with the main upload gone the output file
    stays. *)
Theorem cleanup_stops_at_first_failure (a b c : string) (w : World) :
  fst (cleanup a b c w) = inr tt
  /\ (mem a (tmpFiles w) = false ->
      snd (cleanup a b c w) = mkWorld (tmpFiles w) (trace w ++ [Unlink a]))
  /\ (mem a (tmpFiles w) = true ->
      mem b (removeFile a (tmpFiles w)) = false ->
      snd (cleanup a b c w)
      = mkWorld (removeFile a (tmpFiles w)) (trace w ++ [Unlink a; Unlink b])).
Proof.
  split; [apply cleanup_calls |].
  unfold cleanup, tryCatch, bind, unlinkSync. simpl. split.
  - intros Ha. now rewrite Ha.
  - intros Ha Hb. rewrite Ha. simpl. rewrite Hb. simpl.
    now rewrite <- app_assoc.
Qed.

(** ** Every run has one of the shapes *)

Lemma mergeVideos_run (plan : bool -> bool -> string + Plan)
      (env : Env) (req : Request) :
  MergeRun plan env req (trace (finalWorld (mergeVideos plan env) req)).
Proof.
  destruct (missingFiles req) eqn:Hmiss.
  { rewrite (missing_rejected plan env req Hmiss). now apply RunMissing. }
  unfold finalWorld, mergeVideos, arrival. rewrite Hmiss.
  unfold missingFiles in Hmiss.
  destruct (files req) as [[[li|] [lm|]]|] eqn:Hfiles; try discriminate Hmiss.
  destruct li as [|i li].
  { simpl. apply (RunEmptyField plan env req [] lm); auto. }
  erewrite tryCatch_step by reflexivity.
  destruct lm as [|m lm].
  { simpl. apply (RunEmptyField plan env req (i :: li) []); auto. }
  erewrite tryCatch_step by reflexivity.
  destruct (ffprobe env (path i)) as [e1|a] eqn:Ha;
    [| destruct (ffprobe env (path m)) as [e2|b] eqn:Hb].
  - unfold probeBoth, tryCatch, bind. simpl. rewrite Ha.
    destruct (ffprobe env (path m)) as [e2|b] eqn:Hb; simpl.
    + destruct (mainSettlesFirst env);
        eapply RunProbeFailed; eauto.
    + eapply RunProbeFailed; eauto.
  - unfold probeBoth, tryCatch, bind. simpl. rewrite Ha, Hb. simpl.
    eapply RunProbeFailed; eauto.
  - erewrite tryCatch_step
      by (unfold probeBoth, bind; simpl; rewrite Ha, Hb; reflexivity).
    simpl. destruct (plan (hasAudio a) (hasAudio b)) as [unsupported|p] eqn:Hp.
    { simpl. eapply RunUnsupported; eauto. }
    fold (transcodeCommand (path i) (path m) p (outputPath env)).
    destruct (ffmpegRun env (transcodeCommand (path i) (path m) p (outputPath env)))
      as [msg|] eqn:Hrun.
    + erewrite tryCatch_caught
        by (unfold runFfmpeg; rewrite Hrun; reflexivity).
      destruct (leavesPartialOutput env); simpl;
        eapply RunTranscodeFailed; eauto.
    + erewrite tryCatch_step
        by (unfold runFfmpeg; rewrite Hrun; reflexivity).
      erewrite tryCatch_step by reflexivity.
      unfold tryCatch.
      match goal with
      | |- context [cleanup ?x ?y ?z ?w] =>
          destruct (cleanup_calls x y z w) as [Hok [calls [Htr Hcalls]]];
          destruct (cleanup x y z w) as [r w']
      end.
      simpl in Hok, Htr. subst r. simpl. rewrite Htr.
      eapply RunDelivered; eauto.
Qed.

Lemma streamCopy_run (env : Env) (req : Request) :
  CopyRun env req (trace (finalWorld (StreamCopy.mergeVideos env) req)).
Proof.
  destruct (missingFiles req) eqn:Hmiss.
  { destruct (streamCopy_missing env req Hmiss) as [msg Hw]. rewrite Hw.
    apply CopyNoField. now left. }
  unfold finalWorld, StreamCopy.mergeVideos, StreamCopy.fieldPath, arrival.
  unfold missingFiles in Hmiss.
  destruct (files req) as [[[li|] [lm|]]|] eqn:Hfiles; try discriminate Hmiss.
  destruct li as [|i li].
  { simpl. apply CopyNoField. right. exists [], lm. auto. }
  erewrite tryCatch_step by reflexivity.
  destruct lm as [|m lm].
  { simpl. apply CopyNoField. right. exists (i :: li), []. auto. }
  erewrite tryCatch_step by reflexivity.
  destruct (writeFileFails env) as [msg|] eqn:Hwrite.
  { erewrite tryCatch_caught
      by (unfold writeFileSync; rewrite Hwrite; reflexivity).
    simpl. eapply CopyWriteFailed; eauto. }
  erewrite tryCatch_step
    by (unfold writeFileSync; rewrite Hwrite; reflexivity).
  fold (copyCommand env).
  destruct (ffmpegRun env (copyCommand env)) as [msg|] eqn:Hrun.
  - erewrite tryCatch_caught
      by (unfold runFfmpeg; rewrite Hrun; reflexivity).
    destruct (leavesPartialOutput env); simpl;
      eapply CopyTranscodeFailed; eauto.
  - erewrite tryCatch_step
      by (unfold runFfmpeg; rewrite Hrun; reflexivity).
    erewrite tryCatch_step by reflexivity.
    unfold tryCatch.
    match goal with
    | |- context [StreamCopy.cleanup ?x ?y ?z ?t ?w] =>
        destruct (copy_cleanup_calls x y z t w) as [Hok [calls [Htr Hcalls]]];
        destruct (StreamCopy.cleanup x y z t w) as [r w']
    end.
    simpl in Hok, Htr. subst r. simpl. rewrite Htr.
    eapply CopyDelivered; eauto.
Qed.

(** ** What follows from the shapes *)

Lemma responses_of_unlinks (l : list string) :
  flat_map (fun ev => match ev with Respond r => [r] | _ => [] end)
           (map Unlink l) = [].
Proof. induction l; simpl; auto. Qed.

Lemma transcodes_of_unlinks (l : list string) :
  flat_map (fun ev => match ev with Ffmpeg cmd => [cmd] | _ => [] end)
           (map Unlink l) = [].
Proof. induction l; simpl; auto. Qed.

(** A filter-graph handler answers every request exactly once: with the
    merged file and status 200, or with [{ error: message }] and status
    400 or 500. *)
Theorem mergeVideos_answers_once (plan : bool -> bool -> string + Plan)
        (env : Env) (req : Request) :
  exists r,
    responses (finalWorld (mergeVideos plan env) req) = [r]
    /\ ((status r = 200%N /\ body r = FileBody (resolve env (outputPath env)))
        \/ ((status r = 400%N \/ status r = 500%N)
            /\ exists msg, body r = JsonError msg)).
Proof.
  pose proof (mergeVideos_run plan env req) as Hrun. unfold responses.
  destruct Hrun as [ | | | | | i li m lm a b p calls _ _ _ _ _ [n [_ Hcalls]]];
    try (eexists; split; [reflexivity |]; right; simpl; eauto).
  subst calls. rewrite flat_map_app, responses_of_unlinks. simpl.
  eexists. split; [reflexivity |]. left. now split.
Qed.

(** The stream-copy handler answers every request exactly once: with
    the merged file and status 200, or with the text ["Error: " + message]
    and status 500. *)
Theorem streamCopy_answers_once (env : Env) (req : Request) :
  exists r,
    responses (finalWorld (StreamCopy.mergeVideos env) req) = [r]
    /\ ((status r = 200%N
         /\ body r = FileBody (resolve env (StreamCopy.outputPath env)))
        \/ (status r = 500%N
            /\ exists msg, body r = Text ("Error: " ++ msg)%string)).
Proof.
  pose proof (streamCopy_run env req) as Hrun. unfold responses.
  destruct Hrun as [ | | | i li m lm calls _ _ _ [n [_ Hcalls]]];
    try (eexists; split; [reflexivity |]; right; simpl; eauto).
  subst calls. rewrite flat_map_app, responses_of_unlinks. simpl.
  eexists. split; [reflexivity |]. left. now split.
Qed.

Lemma transcode_shape (plan : bool -> bool -> string + Plan)
      (env : Env) (req : Request) (cmd : Command) :
  In cmd (transcodes (finalWorld (mergeVideos plan env) req)) ->
  exists i li m lm a b p,
    files req = Some (mkFiles (Some (i :: li)) (Some (m :: lm)))
    /\ ffprobe env (path i) = inr a
    /\ ffprobe env (path m) = inr b
    /\ plan (hasAudio a) (hasAudio b) = inr p
    /\ cmd = transcodeCommand (path i) (path m) p (outputPath env)
    /\ transcodes (finalWorld (mergeVideos plan env) req) = [cmd]
    /\ exists rest,
         trace (finalWorld (mergeVideos plan env) req)
         = Ffprobe (path i) :: Ffprobe (path m) :: Ffmpeg cmd :: rest.
Proof.
  pose proof (mergeVideos_run plan env req) as Hrun. unfold transcodes.
  destruct Hrun as
      [ | | | | i li m lm a b p msg Hf Ha Hb Hp _
        | i li m lm a b p calls Hf Ha Hb Hp _ [n [_ Hcalls]] ];
    simpl; try contradiction.
  - intros [<- | []]. exists i, li, m, lm, a, b, p.
    repeat split; auto. eexists; reflexivity.
  - subst calls. rewrite transcodes_of_unlinks.
    intros [<- | []]. exists i, li, m, lm, a, b, p.
    repeat split; auto. eexists; reflexivity.
Qed.

(** A filter-graph handler runs ffmpeg at most once, and only after both
    probes answered and the planner accepted their audio flags: the
    command reads the intro upload, then the main upload, with the filters
    and options planned for those flags, and writes to [outputPath]. *)
Theorem transcode_follows_probes (plan : bool -> bool -> string + Plan)
        (env : Env) (req : Request) (cmd : Command) :
  In cmd (transcodes (finalWorld (mergeVideos plan env) req)) ->
  exists i li m lm a b p,
    files req = Some (mkFiles (Some (i :: li)) (Some (m :: lm)))
    /\ ffprobe env (path i) = inr a
    /\ ffprobe env (path m) = inr b
    /\ plan (hasAudio a) (hasAudio b) = inr p
    /\ cmd = transcodeCommand (path i) (path m) p (outputPath env)
    /\ transcodes (finalWorld (mergeVideos plan env) req) = [cmd]
    /\ exists rest,
         trace (finalWorld (mergeVideos plan env) req)
         = Ffprobe (path i) :: Ffprobe (path m) :: Ffmpeg cmd :: rest.
Proof. apply transcode_shape. Qed.

Lemma transcode_follows_probes_witness :
  exists i li m lm a b p,
    files sampleRequest = Some (mkFiles (Some (i :: li)) (Some (m :: lm)))
    /\ ffprobe sampleEnv (path i) = inr a
    /\ ffprobe sampleEnv (path m) = inr b
    /\ SeparateAudio.plan (hasAudio a) (hasAudio b) = inr p
    /\ transcodeCommand "/tmp/video-merge-api/8f3a" "/tmp/video-merge-api/b21c"
         (mkPlan (SeparateAudio.allFilters true true)
                 (SeparateAudio.outputOptions true true))
         (outputPath sampleEnv)
       = transcodeCommand (path i) (path m) p (outputPath sampleEnv)
    /\ transcodes (finalWorld (mergeVideos SeparateAudio.plan sampleEnv)
                              sampleRequest)
       = [transcodeCommand "/tmp/video-merge-api/8f3a" "/tmp/video-merge-api/b21c"
            (mkPlan (SeparateAudio.allFilters true true)
                    (SeparateAudio.outputOptions true true))
            (outputPath sampleEnv)]
    /\ exists rest,
         trace (finalWorld (mergeVideos SeparateAudio.plan sampleEnv) sampleRequest)
         = Ffprobe (path i) :: Ffprobe (path m)
             :: Ffmpeg (transcodeCommand "/tmp/video-merge-api/8f3a"
                          "/tmp/video-merge-api/b21c"
                          (mkPlan (SeparateAudio.allFilters true true)
                                  (SeparateAudio.outputOptions true true))
                          (outputPath sampleEnv))
             :: rest.
Proof.
  apply (transcode_follows_probes SeparateAudio.plan sampleEnv sampleRequest).
  vm_compute. left. reflexivity.
Defined.

(** A sound planner makes a sound handler: when every plan of the planner
    is well formed for its flags, every filter graph the handler passes
    to ffmpeg is well formed for the audio flags of the two probes. *)
Theorem sound_planner_sound_transcode (plan : bool -> bool -> string + Plan)
        (env : Env) (req : Request) (cmd : Command) :
  (forall i m p, plan i m = inr p -> wellFormed i m p = true) ->
  In cmd (transcodes (finalWorld (mergeVideos plan env) req)) ->
  exists i li m lm a b fs,
    files req = Some (mkFiles (Some (i :: li)) (Some (m :: lm)))
    /\ ffprobe env (path i) = inr a
    /\ ffprobe env (path m) = inr b
    /\ complexFilter cmd = Some fs
    /\ wellFormed (hasAudio a) (hasAudio b) (mkPlan fs (commandOptions cmd))
       = true.
Proof.
  intros Hsound Hin.
  destruct (transcode_shape plan env req cmd Hin)
    as (i & li & m & lm & a & b & p & Hf & Ha & Hb & Hp & Hcmd & _).
  exists i, li, m, lm, a, b, (filters p). subst cmd. simpl.
  repeat split; auto.
  specialize (Hsound _ _ _ Hp). now destruct p.
Qed.

Lemma SeparateAudio_sound (i m : bool) (p : Plan) :
  SeparateAudio.plan i m = inr p -> wellFormed i m p = true.
Proof. intros H. injection H as <-. apply SeparateAudio_wellFormed. Qed.

Lemma sound_planner_sound_transcode_witness :
  exists i li m lm a b fs,
    files sampleRequest = Some (mkFiles (Some (i :: li)) (Some (m :: lm)))
    /\ ffprobe sampleEnv (path i) = inr a
    /\ ffprobe sampleEnv (path m) = inr b
    /\ Some (SeparateAudio.allFilters true true) = Some fs
    /\ wellFormed (hasAudio a) (hasAudio b)
                  (mkPlan fs (SeparateAudio.outputOptions true true))
       = true.
Proof.
  apply (sound_planner_sound_transcode SeparateAudio.plan sampleEnv sampleRequest
           (transcodeCommand "/tmp/video-merge-api/8f3a" "/tmp/video-merge-api/b21c"
              (mkPlan (SeparateAudio.allFilters true true)
                      (SeparateAudio.outputOptions true true))
              (outputPath sampleEnv))).
  - exact SeparateAudio_sound.
  - vm_compute. left. reflexivity.
Defined.

(** ** The delivered path *)

Lemma eqb_false_of_neq (a b : string) : a <> b -> String.eqb a b = false.
Proof. apply String.eqb_neq. Qed.

Lemma eqb_false_of_neq_sym (a b : string) : a <> b -> String.eqb b a = false.
Proof. intros H. apply String.eqb_neq. congruence. Qed.

Lemma cleanup_all_present (a b c : string) (tr : list Event) :
  a <> b -> c <> a -> c <> b ->
  cleanup a b c (mkWorld [c; a; b] tr)
  = (inr tt, mkWorld [] (tr ++ [Unlink a; Unlink b; Unlink c])).
Proof.
  intros Hab Hca Hcb.
  pose proof (eqb_false_of_neq _ _ Hab) as E1.
  pose proof (eqb_false_of_neq_sym _ _ Hab) as E2.
  pose proof (eqb_false_of_neq _ _ Hca) as E3.
  pose proof (eqb_false_of_neq_sym _ _ Hca) as E4.
  pose proof (eqb_false_of_neq _ _ Hcb) as E5.
  pose proof (eqb_false_of_neq_sym _ _ Hcb) as E6.
  unfold cleanup, tryCatch, bind, unlinkSync, removeFile, mem.
  cbn [tmpFiles trace existsb filter].
  rewrite !String.eqb_refl, ?E1, ?E2, ?E3, ?E4, ?E5, ?E6.
  cbn [orb negb tmpFiles trace existsb filter].
  rewrite !String.eqb_refl, ?E1, ?E2, ?E3, ?E4, ?E5, ?E6.
  cbn [orb negb tmpFiles trace existsb filter].
  rewrite !String.eqb_refl, ?E1, ?E2, ?E3, ?E4, ?E5, ?E6.
  cbn [orb negb tmpFiles trace existsb filter].
  now rewrite <- !app_assoc.
Qed.

(** When both probes answer, the planner accepts and ffmpeg ends well, a
    request with one intro and one main upload is answered with the merged
    file, and then the two uploads and the output file are unlinked, each
    once, in that order: temporary storage is empty again.  The three
    paths are taken to differ. *)
Theorem delivered_run_empties_storage (plan : bool -> bool -> string + Plan)
        (env : Env) (i m : UploadedFile) (a b : option ProbeData) (p : Plan) :
  path i <> path m ->
  outputPath env <> path i ->
  outputPath env <> path m ->
  ffprobe env (path i) = inr a ->
  ffprobe env (path m) = inr b ->
  plan (hasAudio a) (hasAudio b) = inr p ->
  ffmpegRun env (transcodeCommand (path i) (path m) p (outputPath env)) = None ->
  finalWorld (mergeVideos plan env)
             (mkRequest (Some (mkFiles (Some [i]) (Some [m]))))
  = mkWorld []
      [Ffprobe (path i); Ffprobe (path m);
       Ffmpeg (transcodeCommand (path i) (path m) p (outputPath env));
       Respond (mkResponse 200 (FileBody (resolve env (outputPath env))));
       Unlink (path i); Unlink (path m); Unlink (outputPath env)].
Proof.
  intros Him Hoi Hom Ha Hb Hp Hrun.
  assert (Hadd : addFile (outputPath env) [path i; path m]
                 = [outputPath env; path i; path m]).
  { unfold addFile, mem. cbn [existsb].
    now rewrite (eqb_false_of_neq _ _ Hoi), (eqb_false_of_neq _ _ Hom). }
  unfold finalWorld, mergeVideos, arrival.
  change (missingFiles (mkRequest (Some (mkFiles (Some [i]) (Some [m])))))
    with false.
  cbv iota.
  erewrite tryCatch_step by reflexivity.
  erewrite tryCatch_step by reflexivity.
  erewrite tryCatch_step
    by (unfold probeBoth, bind; simpl; rewrite Ha, Hb; reflexivity).
  cbn [fst snd]. rewrite Hp.
  fold (transcodeCommand (path i) (path m) p (outputPath env)).
  erewrite tryCatch_step
    by (unfold runFfmpeg; rewrite Hrun; reflexivity).
  erewrite tryCatch_step by reflexivity.
  unfold tryCatch.
  cbn [tmpFiles trace uploads files intro main map app output transcodeCommand].
  rewrite Hadd, (cleanup_all_present _ _ _ _ Him Hoi Hom).
  reflexivity.
Qed.

Lemma delivered_run_empties_storage_witness :
  finalWorld (mergeVideos SeparateAudio.plan sampleEnv) sampleRequest
  = mkWorld []
      [Ffprobe "/tmp/video-merge-api/8f3a"; Ffprobe "/tmp/video-merge-api/b21c";
       Ffmpeg (transcodeCommand "/tmp/video-merge-api/8f3a"
                 "/tmp/video-merge-api/b21c"
                 (mkPlan (SeparateAudio.allFilters true true)
                         (SeparateAudio.outputOptions true true))
                 (outputPath sampleEnv));
       Respond (mkResponse 200 (FileBody (resolve sampleEnv (outputPath sampleEnv))));
       Unlink "/tmp/video-merge-api/8f3a"; Unlink "/tmp/video-merge-api/b21c";
       Unlink (outputPath sampleEnv)].
Proof.
  apply (delivered_run_empties_storage SeparateAudio.plan sampleEnv
           (mkUpload "/tmp/video-merge-api/8f3a")
           (mkUpload "/tmp/video-merge-api/b21c")
           audioVideo audioVideo
           (mkPlan (SeparateAudio.allFilters true true)
                   (SeparateAudio.outputOptions true true)));
    try reflexivity; vm_compute; discriminate.
Defined.

(** A run of a filter-graph handler that did not reach [res.sendFile]
    has unlinked nothing: every upload of the request is still in
    temporary storage, whatever the planner and the environment. *)
Theorem undelivered_run_keeps_uploads (plan : bool -> bool -> string + Plan)
        (env : Env) (req : Request) :
  delivered (finalWorld (mergeVideos plan env) req) = false ->
  anyUnlink (finalWorld (mergeVideos plan env) req) = false
  /\ incl (uploads req) (tmpFiles (finalWorld (mergeVideos plan env) req)).
Proof. apply undelivered_keeps_uploads. Qed.

Lemma undelivered_run_keeps_uploads_witness :
  anyUnlink (finalWorld (mergeVideos RejectAsymmetric.plan brokenIntroEnv)
                        sampleRequest) = false
  /\ incl (uploads sampleRequest)
          (tmpFiles (finalWorld (mergeVideos RejectAsymmetric.plan brokenIntroEnv)
                                sampleRequest)).
Proof.
  apply (undelivered_run_keeps_uploads RejectAsymmetric.plan brokenIntroEnv
                                       sampleRequest).
  reflexivity.
Defined.

(** The reject-asymmetric handler decides on main's audio alone: when the
    probe of main shows no audio stream the request is answered 400 after
    both probes, nothing is transcoded and nothing is unlinked; when it
    shows one, ffmpeg is run. *)
Theorem reject_asymmetric_decides_on_main (env : Env) (req : Request)
        (i m : UploadedFile) (li lm : list UploadedFile)
        (a b : option ProbeData) :
  files req = Some (mkFiles (Some (i :: li)) (Some (m :: lm))) ->
  ffprobe env (path i) = inr a ->
  ffprobe env (path m) = inr b ->
  if hasAudio b then
    exists p rest,
      RejectAsymmetric.plan (hasAudio a) true = inr p
      /\ trace (finalWorld (mergeVideos RejectAsymmetric.plan env) req)
         = Ffprobe (path i) :: Ffprobe (path m)
             :: Ffmpeg (transcodeCommand (path i) (path m) p (outputPath env))
             :: rest
  else
    exists msg,
      finalWorld (mergeVideos RejectAsymmetric.plan env) req
      = mkWorld (uploads req)
                [Ffprobe (path i); Ffprobe (path m);
                 Respond (mkResponse 400 (JsonError msg))].
Proof.
  intros Hfiles Ha Hb.
  assert (Hpresent : missingFiles req = false)
    by (unfold missingFiles; now rewrite Hfiles).
  destruct (hasAudio b) eqn:Haudio; [rename Haudio into Hyes | rename Haudio into Hno].
  2: { unfold finalWorld, mergeVideos, arrival. rewrite Hpresent, Hfiles.
    erewrite tryCatch_step by reflexivity.
    erewrite tryCatch_step by reflexivity.
    erewrite tryCatch_step
      by (unfold probeBoth, bind; simpl; rewrite Ha, Hb; reflexivity).
    simpl. rewrite Hno.
    destruct (hasAudio a); simpl; eexists; reflexivity. }
  rename Hyes into Haudio.
  - pose proof (mergeVideos_run RejectAsymmetric.plan env req) as Hrun.
    destruct Hrun as
        [ Hmiss | li' lm' msg Hf Hempty | i' li' m' lm' msg Hf Hfail
          | i' li' m' lm' a' b' msg Hf Ha' Hb' Hp
          | i' li' m' lm' a' b' p msg Hf Ha' Hb' Hp Hrun
          | i' li' m' lm' a' b' p calls Hf Ha' Hb' Hp Hrun Hcalls ].
    + congruence.
    + rewrite Hfiles in Hf. injection Hf as <- <-.
      destruct Hempty; discriminate.
    + rewrite Hfiles in Hf. injection Hf as <- <- <- <-.
      destruct Hfail; congruence.
    + rewrite Hfiles in Hf. injection Hf as <- <- <- <-.
      rewrite Ha in Ha'. rewrite Hb in Hb'.
      injection Ha' as <-. injection Hb' as <-.
      rewrite Haudio in Hp. destruct (hasAudio a); discriminate Hp.
    + rewrite Hfiles in Hf. injection Hf as <- <- <- <-.
      rewrite Ha in Ha'. rewrite Hb in Hb'.
      injection Ha' as <-. injection Hb' as <-.
      rewrite Haudio in Hp. exists p. eexists. split; [exact Hp | reflexivity].
    + rewrite Hfiles in Hf. injection Hf as <- <- <- <-.
      rewrite Ha in Ha'. rewrite Hb in Hb'.
      injection Ha' as <-. injection Hb' as <-.
      rewrite Haudio in Hp. exists p. eexists. split; [exact Hp | reflexivity].
Qed.

Lemma reject_asymmetric_decides_on_main_witness :
  exists msg,
    finalWorld (mergeVideos RejectAsymmetric.plan silentMainEnv) sampleRequest
    = mkWorld (uploads sampleRequest)
              [Ffprobe "/tmp/video-merge-api/8f3a";
               Ffprobe "/tmp/video-merge-api/b21c";
               Respond (mkResponse 400 (JsonError msg))].
Proof.
  exact (reject_asymmetric_decides_on_main silentMainEnv sampleRequest
           (mkUpload "/tmp/video-merge-api/8f3a")
           (mkUpload "/tmp/video-merge-api/b21c") [] []
           audioVideo videoOnly eq_refl eq_refl eq_refl).
Defined.

(** ** The stream-copy handler: files *)

(** The list file and the output file of the stream-copy handler never
    share a name, whatever the two readings of the clock; and each name
    is distinct for distinct readings. *)
Theorem streamCopy_names_apart (env env' : Env) :
  String.eqb (StreamCopy.fileListPath env) (StreamCopy.outputPath env') = false
  /\ (StreamCopy.fileListPath env = StreamCopy.fileListPath env'
      <-> nowAgain env = nowAgain env').
Proof.
  split; [reflexivity |]. unfold StreamCopy.fileListPath, join. split.
  - intros H.
    apply (append_cancel_l "uploads") in H. apply (append_cancel_l "/") in H.
    apply (append_cancel_l "filelist_") in H.
    apply append_cancel_r in H. now apply decimal_inj.
  - intros H. now rewrite H.
Qed.

(** A run of the stream-copy handler that did not reach [res.sendFile]
    has unlinked nothing: the uploads stay in storage, and so does the
    list file once it was written. *)
Theorem streamCopy_undelivered_keeps_files (env : Env) (req : Request) :
  delivered (finalWorld (StreamCopy.mergeVideos env) req) = false ->
  anyUnlink (finalWorld (StreamCopy.mergeVideos env) req) = false
  /\ incl (uploads req) (tmpFiles (finalWorld (StreamCopy.mergeVideos env) req))
  /\ (existsb isTranscode (trace (finalWorld (StreamCopy.mergeVideos env) req))
      = true ->
      In (StreamCopy.fileListPath env)
         (tmpFiles (finalWorld (StreamCopy.mergeVideos env) req))).
Proof.
  destruct (missingFiles req) eqn:Hmiss.
  { destruct (streamCopy_missing env req Hmiss) as [msg Hw]. rewrite Hw. simpl.
    intros _. repeat split; [apply incl_refl | discriminate]. }
  unfold finalWorld, StreamCopy.mergeVideos, StreamCopy.fieldPath, arrival.
  unfold missingFiles in Hmiss.
  destruct (files req) as [[[li|] [lm|]]|] eqn:Hfiles; try discriminate Hmiss.
  assert (Hup : uploads req = map path li ++ map path lm)
    by (unfold uploads; now rewrite Hfiles).
  rewrite Hup.
  destruct li as [|i li].
  { simpl. intros _. repeat split; [apply incl_refl | discriminate]. }
  erewrite tryCatch_step by reflexivity.
  destruct lm as [|m lm].
  { simpl. intros _. repeat split; [apply incl_refl | discriminate]. }
  erewrite tryCatch_step by reflexivity.
  destruct (writeFileFails env) as [msg|] eqn:Hwrite.
  { erewrite tryCatch_caught
      by (unfold writeFileSync; rewrite Hwrite; reflexivity).
    simpl. intros _. repeat split; [apply incl_refl | discriminate]. }
  erewrite tryCatch_step
    by (unfold writeFileSync; rewrite Hwrite; reflexivity).
  fold (copyCommand env).
  assert (Hlist : forall l, In (StreamCopy.fileListPath env)
                               (addFile (StreamCopy.fileListPath env) l)).
  { intros l. unfold addFile.
    destruct (mem (StreamCopy.fileListPath env) l) eqn:E;
      [now apply mem_In | now left]. }
  destruct (ffmpegRun env (copyCommand env)) as [msg|] eqn:Hrun.
  - erewrite tryCatch_caught
      by (unfold runFfmpeg; rewrite Hrun; reflexivity).
    destruct (leavesPartialOutput env); unfold respond, emit;
      cbn [snd fst tmpFiles trace]; intros _;
      (split; [reflexivity | split]).
    + eapply incl_tran; apply incl_addFile.
    + intros _. apply incl_addFile, Hlist.
    + apply incl_addFile.
    + intros _. apply Hlist.
  - erewrite tryCatch_step
      by (unfold runFfmpeg; rewrite Hrun; reflexivity).
    erewrite tryCatch_step by reflexivity.
    match goal with
    | |- context [tryCatch ?c ?h ?w] =>
        assert (Hrest : emitsOnly (fun _ => True) (tryCatch c h));
        [| destruct (Hrest w) as [more [Htr _]]]
    end.
    + apply emitsOnly_tryCatch; [| intros e; now apply emitsOnly_respond].
      now apply emitsOnly_copy_cleanup.
    + unfold delivered. rewrite Htr. simpl. discriminate.
Qed.

Lemma streamCopy_undelivered_keeps_files_witness :
  anyUnlink (finalWorld (StreamCopy.mergeVideos failingTranscodeEnv) copyRequest)
  = false
  /\ incl (uploads copyRequest)
          (tmpFiles (finalWorld (StreamCopy.mergeVideos failingTranscodeEnv)
                                copyRequest))
  /\ (existsb isTranscode
              (trace (finalWorld (StreamCopy.mergeVideos failingTranscodeEnv)
                                 copyRequest)) = true ->
      In (StreamCopy.fileListPath failingTranscodeEnv)
         (tmpFiles (finalWorld (StreamCopy.mergeVideos failingTranscodeEnv)
                               copyRequest))).
Proof.
  apply (streamCopy_undelivered_keeps_files failingTranscodeEnv copyRequest).
  reflexivity.
Defined.

Lemma copy_cleanup_all_present (a b c d : string) (tr : list Event) :
  a <> b -> c <> a -> c <> b -> d <> a -> d <> b -> d <> c ->
  StreamCopy.cleanup a b c d (mkWorld [d; c; a; b] tr)
  = (inr tt, mkWorld [] (tr ++ [Unlink a; Unlink b; Unlink c; Unlink d])).
Proof.
  intros Hab Hca Hcb Hda Hdb Hdc.
  pose proof (eqb_false_of_neq _ _ Hab) as E1.
  pose proof (eqb_false_of_neq_sym _ _ Hab) as E2.
  pose proof (eqb_false_of_neq _ _ Hca) as E3.
  pose proof (eqb_false_of_neq_sym _ _ Hca) as E4.
  pose proof (eqb_false_of_neq _ _ Hcb) as E5.
  pose proof (eqb_false_of_neq_sym _ _ Hcb) as E6.
  pose proof (eqb_false_of_neq _ _ Hda) as E7.
  pose proof (eqb_false_of_neq_sym _ _ Hda) as E8.
  pose proof (eqb_false_of_neq _ _ Hdb) as E9.
  pose proof (eqb_false_of_neq_sym _ _ Hdb) as E10.
  pose proof (eqb_false_of_neq _ _ Hdc) as E11.
  pose proof (eqb_false_of_neq_sym _ _ Hdc) as E12.
  unfold StreamCopy.cleanup, tryCatch, bind, unlinkSync, removeFile, mem.
  do 4 (cbn [orb negb tmpFiles trace existsb filter];
        rewrite ?String.eqb_refl, ?E1, ?E2, ?E3, ?E4, ?E5, ?E6,
                ?E7, ?E8, ?E9, ?E10, ?E11, ?E12).
  cbn [orb negb tmpFiles trace existsb filter].
  now rewrite <- !app_assoc.
Qed.

(** When the list file is written and ffmpeg ends well, the stream-copy
    handler answers with the merged file and then unlinks the two uploads,
    the list file and the output file, each once, in that order:
    storage is empty again.  The list names the intro before the main.
    The paths are taken to differ. *)
Theorem streamCopy_delivered_empties_storage (env : Env) (i m : UploadedFile) :
  path i <> path m ->
  StreamCopy.fileListPath env <> path i ->
  StreamCopy.fileListPath env <> path m ->
  StreamCopy.outputPath env <> path i ->
  StreamCopy.outputPath env <> path m ->
  writeFileFails env = None ->
  ffmpegRun env (copyCommand env) = None ->
  finalWorld (StreamCopy.mergeVideos env)
             (mkRequest (Some (mkFiles (Some [i]) (Some [m]))))
  = mkWorld []
      [WriteFile (StreamCopy.fileListPath env)
                 (StreamCopy.fileList env (path i) (path m));
       Ffmpeg (copyCommand env);
       Respond (mkResponse 200 (FileBody (resolve env (StreamCopy.outputPath env))));
       Unlink (path i); Unlink (path m);
       Unlink (StreamCopy.fileListPath env);
       Unlink (StreamCopy.outputPath env)].
Proof.
  intros Him Hli Hlm Hoi Hom Hwrite Hrun.
  assert (Hol : StreamCopy.outputPath env <> StreamCopy.fileListPath env)
    by discriminate.
  assert (Hadd1 : addFile (StreamCopy.fileListPath env) [path i; path m]
                  = [StreamCopy.fileListPath env; path i; path m]).
  { unfold addFile, mem. cbn [existsb].
    now rewrite (eqb_false_of_neq _ _ Hli), (eqb_false_of_neq _ _ Hlm). }
  assert (Hadd2 : addFile (StreamCopy.outputPath env)
                          [StreamCopy.fileListPath env; path i; path m]
                  = [StreamCopy.outputPath env; StreamCopy.fileListPath env;
                     path i; path m]).
  { unfold addFile, mem. cbn [existsb].
    now rewrite (eqb_false_of_neq _ _ Hol), (eqb_false_of_neq _ _ Hoi),
      (eqb_false_of_neq _ _ Hom). }
  unfold finalWorld, StreamCopy.mergeVideos, StreamCopy.fieldPath, arrival.
  cbn [files].
  erewrite tryCatch_step by reflexivity.
  erewrite tryCatch_step by reflexivity.
  erewrite tryCatch_step
    by (unfold writeFileSync; rewrite Hwrite; reflexivity).
  fold (copyCommand env).
  erewrite tryCatch_step
    by (unfold runFfmpeg; rewrite Hrun; reflexivity).
  erewrite tryCatch_step by reflexivity.
  unfold tryCatch.
  cbn [tmpFiles trace uploads files intro main map app output copyCommand].
  rewrite Hadd1, Hadd2,
    (copy_cleanup_all_present _ _ _ _ _ Him Hli Hlm Hoi Hom Hol).
  reflexivity.
Qed.

Lemma streamCopy_delivered_empties_storage_witness :
  finalWorld (StreamCopy.mergeVideos sampleEnv) copyRequest
  = mkWorld []
      [WriteFile (StreamCopy.fileListPath sampleEnv)
                 (StreamCopy.fileList sampleEnv "uploads/8f3a" "uploads/b21c");
       Ffmpeg (copyCommand sampleEnv);
       Respond (mkResponse 200
                  (FileBody (resolve sampleEnv (StreamCopy.outputPath sampleEnv))));
       Unlink "uploads/8f3a"; Unlink "uploads/b21c";
       Unlink (StreamCopy.fileListPath sampleEnv);
       Unlink (StreamCopy.outputPath sampleEnv)].
Proof.
  apply (streamCopy_delivered_empties_storage sampleEnv
           (mkUpload "uploads/8f3a") (mkUpload "uploads/b21c"));
    try reflexivity; vm_compute; discriminate.
Defined.

(** ** The probe result and the plans *)

(** An input has audio exactly when the probe lists a stream whose
    [codec_type] is ["audio"]; a null probe result and a result without
    [streams] count as no audio, they raise nothing. *)
Theorem hasAudio_iff (info : option ProbeData) :
  hasAudio info = true
  <-> exists d l s,
        info = Some d /\ streams d = Some l /\ In s l
        /\ codec_type s = "audio".
Proof.
  unfold hasAudio. rewrite existsb_exists. split.
  - intros [s [Hin Heq]]. apply String.eqb_eq in Heq.
    destruct info as [[[l|]]|]; simpl in Hin; try contradiction.
    exists (mkProbe (Some l)), l, s. auto.
  - intros [d [l [s [-> [Hl [Hin Heq]]]]]]. rewrite Hl.
    exists s. split; [exact Hin | now apply String.eqb_eq].
Qed.

(** No stage output is left unconnected in the plans of the
    separate-audio, silence-synthesis and reject-asymmetric handlers:
    every pad produced is read by a stage or mapped.  In the fused-concat
    handler this holds except when only main has audio. *)
Theorem plans_connect_every_pad (introHasA mainHasA : bool) :
  connected (mkPlan (SeparateAudio.allFilters introHasA mainHasA)
                    (SeparateAudio.outputOptions introHasA mainHasA)) = true
  /\ connected (mkPlan (SilenceSynthesis.allFilters introHasA mainHasA)
                       SilenceSynthesis.outputOptions) = true
  /\ match RejectAsymmetric.plan introHasA mainHasA with
     | inr p => connected p = true
     | inl _ => True
     end
  /\ connected (mkPlan (FusedConcat.allFilters introHasA mainHasA)
                       (FusedConcat.outputOptions introHasA mainHasA))
     = negb (negb introHasA && mainHasA).
Proof. destruct introHasA, mainHasA; repeat split. Qed.

(** In every handler the encoding options follow the mapping: the video
    encoder options are always there, and the AAC options are there
    exactly when an audio label is mapped. *)
Theorem encoding_follows_mapping (introHasA mainHasA : bool) :
  Forall (fun options =>
            encodingOf options
            = if isSome (finalAudioLabel options)
              then ["-c:v libx264"; "-preset veryfast"; "-crf 20";
                    "-c:a aac"; "-b:a 192k"; "-movflags +faststart"]
              else ["-c:v libx264"; "-preset veryfast"; "-crf 20";
                    "-movflags +faststart"])
         [FusedConcat.outputOptions introHasA mainHasA;
          SilenceSynthesis.outputOptions;
          SeparateAudio.outputOptions introHasA mainHasA;
          RejectAsymmetric.outputOptions introHasA mainHasA].
Proof. destruct introHasA, mainHasA; repeat constructor. Qed.

(** In every handler and for every pair of audio flags the video output
    [[v]] is made of the intro's video followed by the main's; and when
    both inputs have audio the mapped audio is made of the intro's audio
    followed by the main's. *)
Theorem intro_precedes_main (introHasA mainHasA : bool) :
  Forall (fun stages => videoPads (rawSources 3 stages "[v]") = ["[0:v]"; "[1:v]"])
         [FusedConcat.allFilters introHasA mainHasA;
          SilenceSynthesis.allFilters introHasA mainHasA;
          SeparateAudio.allFilters introHasA mainHasA;
          RejectAsymmetric.allFilters introHasA mainHasA]
  /\ Forall (fun stages => audioPads (rawSources 3 stages "[a]")
                           = ["[0:a]"; "[1:a]"])
            [FusedConcat.allFilters true true;
             SilenceSynthesis.allFilters true true;
             SeparateAudio.allFilters true true;
             RejectAsymmetric.allFilters true true].
Proof. destruct introHasA, mainHasA; split; repeat constructor. Qed.

(** Both uploads are probed before anything else happens, also when the
    probe of the intro fails: with a file in each field the run starts
    with the two [ffprobe] calls, intro first, and what follows ends in
    the one answer. *)
Theorem both_inputs_are_probed (plan : bool -> bool -> string + Plan)
        (env : Env) (req : Request) (i m : UploadedFile)
        (li lm : list UploadedFile) :
  files req = Some (mkFiles (Some (i :: li)) (Some (m :: lm))) ->
  exists rest,
    trace (finalWorld (mergeVideos plan env) req)
    = Ffprobe (path i) :: Ffprobe (path m) :: rest
    /\ existsb isProbe rest = false.
Proof.
  intros Hfiles.
  pose proof (mergeVideos_run plan env req) as Hrun.
  destruct Hrun as
      [ Hmiss | li' lm' msg Hf Hempty | i' li' m' lm' msg Hf Hfail
        | i' li' m' lm' a' b' msg Hf Ha' Hb' Hp
        | i' li' m' lm' a' b' p msg Hf Ha' Hb' Hp Hrun
        | i' li' m' lm' a' b' p calls Hf Ha' Hb' Hp Hrun [n [_ Hcalls]] ].
  - unfold missingFiles in Hmiss. rewrite Hfiles in Hmiss. discriminate.
  - rewrite Hfiles in Hf. injection Hf as <- <-.
    destruct Hempty; discriminate.
  - rewrite Hfiles in Hf. injection Hf as <- <- <- <-.
    eexists. split; reflexivity.
  - rewrite Hfiles in Hf. injection Hf as <- <- <- <-.
    eexists. split; reflexivity.
  - rewrite Hfiles in Hf. injection Hf as <- <- <- <-.
    eexists. split; reflexivity.
  - rewrite Hfiles in Hf. injection Hf as <- <- <- <-.
    eexists. split; [reflexivity |]. subst calls. simpl.
    clear. induction (firstn n [path i; path m; outputPath env]); simpl; auto.
Qed.

Lemma both_inputs_are_probed_witness :
  exists rest,
    trace (finalWorld (mergeVideos FusedConcat.plan brokenIntroEnv) sampleRequest)
    = Ffprobe "/tmp/video-merge-api/8f3a" :: Ffprobe "/tmp/video-merge-api/b21c"
        :: rest
    /\ existsb isProbe rest = false.
Proof.
  exact (both_inputs_are_probed FusedConcat.plan brokenIntroEnv sampleRequest
           (mkUpload "/tmp/video-merge-api/8f3a")
           (mkUpload "/tmp/video-merge-api/b21c") [] [] eq_refl).
Defined.
